(** * bb_multimesh_showcase: a shallow embedding of [main.py]

    The script drives a host application (its scene-graph commands, here
    [cmds.*], and its dialog toolkit).  The host is not part of the
    repository, so the embedding is parametric in it: a [Host] gives a type
    of scenes, the answers of the queries the script asks, and the effect and
    result of every command it issues.  The script itself becomes a
    computation in a state-and-trace monad over the host; every call it makes
    is recorded, in order, in the trace.

    Python floats are Rocq's primitive binary64 floats; Python ints are [Z];
    Python strings are [string].  Host calls are assumed to return (a Python
    exception raised by the host is outside the model).  Of the Qt window
    only the slider handler [on_scale_changed] is modelled; the handler that
    reads the fields and calls [duplicate_and_deform] is not: the field
    values are the arguments of the function. *)

From Stdlib Require Import ZArith List String Ascii Bool Lia.
From Stdlib Require Import Floats DecimalString DecimalN DecimalPos FinFun.
Import ListNotations.

Set Implicit Arguments.
Local Set Warnings "-inexact-float".

Local Open Scope Z_scope.
Local Open Scope list_scope.

(** ** Python values and helpers *)

Module Py.

(** A number handed to the host: the script passes both ints and floats. *)
Inductive num : Type :=
| Int (z : Z)
| Float (f : float).

(** A keyword-flag value of [cmds.modelEditor]. *)
Inductive flag : Type :=
| FBool (b : bool)
| FStr (s : string).

(** [float(z)] for a Python int [z] with |z| < 2^63: it goes through a
    63-bit integer, so it is Python's conversion on that range and wraps
    around beyond it.  The script converts the literals 6 and -2, positions
    of the scale slider (1 to 150) and loop indices, which reach 2^63 in no
    call that ends. *)
Definition float_of_Z (z : Z) : float :=
  if z <? 0 then PrimFloat.opp (PrimFloat.of_uint63 (Uint63.of_Z (- z)))
  else PrimFloat.of_uint63 (Uint63.of_Z z).

(** [min(a, b)]: the first argument is kept unless the second is smaller. *)
Definition min (a b : float) : float :=
  if PrimFloat.ltb b a then b else a.

(** [max(a, b)]: the first argument is kept unless the second is greater. *)
Definition max (a b : float) : float :=
  if PrimFloat.ltb a b then b else a.

(** ["{:02d}".format(n)] *)
Definition format_02d (n : Z) : string :=
  let ds := NilEmpty.string_of_uint (N.to_uint (Z.abs_N n)) in
  if n <? 0 then String "-" ds
  else if (String.length ds <? 2)%nat then String "0" ds
  else ds.

(** [s.split(sep)] for a one-character separator. *)
Fixpoint split (sep : ascii) (s : string) : list string :=
  match s with
  | EmptyString => [EmptyString]
  | String c rest =>
      if Ascii.eqb c sep then EmptyString :: split sep rest
      else match split sep rest with
           | [] => [String c EmptyString]
           | w :: ws => String c w :: ws
           end
  end.

(** [range(n)] *)
Definition range (n : Z) : list Z :=
  map Z.of_nat (seq 0 (Z.to_nat n)).

End Py.

(** ** The host interface *)

(** [cmds.exactWorldBoundingBox] returns
    [[xmin, ymin, zmin, xmax, ymax, zmax]]; the fields are [bbox[0]] to
    [bbox[5]]. *)
Record BBox : Type := mkBBox {
  bbox0 : float; bbox1 : float; bbox2 : float;
  bbox3 : float; bbox4 : float; bbox5 : float
}.

(** The buttons of the confirmation dialog. *)
Inductive StandardButton : Type := Yes | No.

Definition StandardButton_eqb (a b : StandardButton) : bool :=
  match a, b with
  | Yes, Yes | No, No => true
  | _, _ => false
  end.

(** Calls that only read the scene. *)
Inductive query : Type :=
| LsSelection                                   (* cmds.ls(sl=True) *)
| LsSelectedShapes                              (* cmds.ls(sl=True, dag=True, leaf=True,
                                                   noIntermediate=True, objectsOnly=True,
                                                   shapes=True) *)
| NodeType (node : string)                      (* cmds.nodeType(node) *)
| ExactWorldBoundingBox (mesh : string)         (* cmds.exactWorldBoundingBox(mesh) *)
| ObjExists (name : string)                     (* cmds.objExists(name) *)
| Ls (patterns : list string) (type : option string)  (* cmds.ls(p1, ..., type=t) *)
| WindowExists (name : string).                 (* cmds.window(name, exists=True) *)

(** Dialogs of the GUI toolkit. *)
Inductive dialog : Type :=
| Warning (title text : string)                 (* QMessageBox.warning *)
| Question (title text : string).               (* QMessageBox.question, Yes | No *)

(** Calls that may change the scene or the windows. *)
Inductive command : Type :=
| Delete (nodes : list string)                  (* cmds.delete(l1, l2, ...), the lists joined *)
| GroupEmpty (name : string)                    (* cmds.group(empty=True, name=...) *)
| Camera (name : string)                        (* cmds.camera(name=...)[0] *)
| Move (x y z : Py.num) (node : string) (localSpace : bool)
| Parent (child parent : string)
| DeleteUI (name : string)                      (* cmds.deleteUI(name, window=True) *)
| Window (name title iconName : string) (width height : Z)
| PaneLayout
| ModelPanel (label : string)                   (* cmds.modelPanel(label=...) *)
| ModelPanelCamera (panel camera : string)      (* cmds.modelPanel(panel, edit=True, camera=...) *)
| ModelEditor (panel : string) (flags : list (string * Py.flag))
| ShowWindow (window : string)
| LookThru (camera : string)
| Select (nodes : list string)
| ViewFit (f : float)
| Duplicate (node : string)                     (* cmds.duplicate(node)[0] *)
| Rename (old new : string)
| BlendShape (source target name : string) (frontOfChain : bool)  (* cmds.blendShape(...)[0] *)
| SetAttr (attr : string) (values : list Py.num)
| Circle (name : string) (normal : Z * Z * Z) (radius : float)    (* cmds.circle(...)[0] *)
| Scale (x y z : float) (node : string)
| Rotate (x y z : Py.num) (node : string)
| ParentConstraint (driver driven : string)
| ScaleConstraint (driver driven : string).

(** One entry of the trace of host calls.  [Made c r] is a command whose
    result the script keeps ([r = cmds.c(...)], the first element where the
    host returns a list); [Did c] is a command called as a statement. *)
Inductive event : Type :=
| Asked (q : query)
| Showed (d : dialog)
| Did (c : command)
| Made (c : command) (result : string).

Record Host : Type := mkHost {
  scene : Type;
  ls_selection : scene -> list string;
  ls_selected_shapes : scene -> list string;
  node_type : scene -> string -> string;
  world_bbox : scene -> string -> BBox;
  obj_exists : scene -> string -> bool;
  ls_matching : scene -> list string -> option string -> list string;
  window_exists : scene -> string -> bool;
  (** the button the user presses when asked to confirm *)
  question_reply : scene -> StandardButton;
  (** effect and returned name of a command *)
  exec : command -> scene -> string * scene
}.

(** ** The state-and-trace monad *)

Section Script.

Variable H : Host.

Definition M (A : Type) : Type := scene H -> A * scene H * list event.

Definition ret {A} (a : A) : M A := fun s => (a, s, []).

Definition bind {A B} (m : M A) (k : A -> M B) : M B :=
  fun s =>
    let '(a, s1, t1) := m s in
    let '(b, s2, t2) := k a s1 in
    (b, s2, t1 ++ t2).

Definition value {A} (r : A * scene H * list event) : A := fst (fst r).
Definition final {A} (r : A * scene H * list event) : scene H := snd (fst r).
Definition trace {A} (r : A * scene H * list event) : list event := snd r.

Notation "x <- m ;; k" := (bind m (fun x => k))
  (at level 61, m at next level, right associativity).
Notation "m ;;; k" := (bind m (fun _ => k))
  (at level 61, right associativity).

(** A query is answered from the scene and leaves it as it is. *)
Definition ask {A} (q : query) (answer : scene H -> A) : M A :=
  fun s => (answer s, s, [Asked q]).

Definition show {A} (d : dialog) (answer : scene H -> A) : M A :=
  fun s => (answer s, s, [Showed d]).

(** A command returns a name and a new scene. *)
Definition run (c : command) : M string :=
  fun s => let '(r, s') := exec H c s in (r, s', [Made c r]).

(** A command whose result the script discards. *)
Definition run_ (c : command) : M unit :=
  fun s => let '(_, s') := exec H c s in (tt, s', [Did c]).

(** [for x in xs: body(x)] *)
Fixpoint for_each {A} (xs : list A) (body : A -> M unit) : M unit :=
  match xs with
  | [] => ret tt
  | x :: rest => body x ;;; for_each rest body
  end.

(** [[x for x in xs if p(x)]] with an effectful test *)
Fixpoint filter_m {A} (p : A -> M bool) (xs : list A) : M (list A) :=
  match xs with
  | [] => ret []
  | x :: rest =>
      keep <- p x ;;
      kept <- filter_m p rest ;;
      ret (if keep then x :: kept else kept)
  end.

(** [for x in xs: acc = step(acc, x)] *)
Fixpoint fold_m {A B} (step : B -> A -> M B) (acc : B) (xs : list A) : M B :=
  match xs with
  | [] => ret acc
  | x :: rest => acc' <- step acc x ;; fold_m step acc' rest
  end.

(** ** remove_duplicates *)

Definition remove_duplicates : M unit :=
  all_duplicated_meshes <-
    ask (Ls ["*BB_Duplicate_Mesh*dup*"%string] (Some "transform"%string))
        (fun s => ls_matching H s ["*BB_Duplicate_Mesh*dup*"%string] (Some "transform"%string)) ;;
  all_ctrl_circles <-
    ask (Ls ["*BB_Duplicate_Mesh*ctrl*"%string] (Some "transform"%string))
        (fun s => ls_matching H s ["*BB_Duplicate_Mesh*ctrl*"%string] (Some "transform"%string)) ;;
  all_blend_shape_nodes <-
    ask (Ls ["*BB_Duplicate_Mesh*bs*"%string] (Some "blendShape"%string))
        (fun s => ls_matching H s ["*BB_Duplicate_Mesh*bs*"%string] (Some "blendShape"%string)) ;;
  run_ (Delete (all_duplicated_meshes ++ all_ctrl_circles ++ all_blend_shape_nodes)) ;;;
  groups <-
    ask (Ls ["BB_Duplicates_Grp"%string; "BB_Duplicate_Showcase_Grp"%string] None)
        (fun s => ls_matching H s
                    ["BB_Duplicates_Grp"%string; "BB_Duplicate_Showcase_Grp"%string] None) ;;
  run_ (Delete groups).

(** ** calculate_bounding_box *)

(** The six running extrema [x_min, y_min, z_min, x_max, y_max, z_max]. *)
Record extrema : Type := mkExtrema {
  x_min : float; y_min : float; z_min : float;
  x_max : float; y_max : float; z_max : float
}.

Definition extrema_init : extrema :=
  mkExtrema infinity infinity infinity
            neg_infinity neg_infinity neg_infinity.

Definition extrema_step (e : extrema) (bbox : BBox) : extrema :=
  mkExtrema (Py.min (x_min e) (bbox0 bbox))
            (Py.min (y_min e) (bbox1 bbox))
            (Py.min (z_min e) (bbox2 bbox))
            (Py.max (x_max e) (bbox3 bbox))
            (Py.max (y_max e) (bbox4 bbox))
            (Py.max (z_max e) (bbox5 bbox)).

Definition calculate_bounding_box (meshes : list string)
  : M (float * float * float) :=
  e <- fold_m (fun e mesh =>
                 bbox <- ask (ExactWorldBoundingBox mesh)
                             (fun s => world_bbox H s mesh) ;;
                 ret (extrema_step e bbox))
              extrema_init meshes ;;
  let width := PrimFloat.sub (x_max e) (x_min e) in
  let height := PrimFloat.sub (y_max e) (y_min e) in
  let depth := PrimFloat.sub (z_max e) (z_min e) in
  ret (width, height, depth).

(** ** duplicate_and_deform *)

Definition is_mesh_type (t : string) : bool :=
  String.eqb t "mesh" || String.eqb t "nurbsSurface".

Definition offset_positions : list (float * float) :=
  [(1.0, 0.7); (-1.0, 0.7); (1.0, 0.0); (-1.0, 0.0)]%float.

Definition rotation_values : list (Z * Z * Z) :=
  [(0, 90, 0); (0, -90, 0); (0, 0, 0); (0, 180, 0)].

Definition parent_group_name : string := "BB_Duplicates_Grp".
Definition showcase_group_name : string := "BB_Duplicate_Showcase_Grp".

(** ["BB_Duplicate_Mesh_{:02d}".format(k)] *)
Definition group_name (k : Z) : string :=
  ("BB_Duplicate_Mesh_" ++ Py.format_02d k)%string.

(** [mesh.split(":")[-1]] *)
Definition mesh_name_of (mesh : string) : string :=
  last (Py.split ":" mesh) EmptyString.

(** ["dup_" + mesh_name + "_{:02d}".format(k)] *)
Definition duplicate_name (mesh : string) (k : Z) : string :=
  ("dup_" ++ mesh_name_of mesh ++ "_" ++ Py.format_02d k)%string.

(** The body of [if showcase_setup:], the camera, the showcase group and
    the viewer window. *)
Definition create_showcase (initial_selection : list string)
           (parent_group : string) (height depth : float) : M unit :=
  old_cameras <- ask (Ls ["renderCam"%string] None)
                     (fun s => ls_matching H s ["renderCam"%string] None) ;;
  run_ (Delete old_cameras) ;;;
  camera <- run (Camera "renderCam") ;;
  run_ (Move (Py.Int 0) (Py.Float (0.5 * height))
             (Py.Float (Py.float_of_Z 6 * depth)) camera false) ;;;
  run_ (GroupEmpty showcase_group_name) ;;;
  run_ (Parent camera showcase_group_name) ;;;
  run_ (Parent parent_group camera) ;;;
  stale <- ask (WindowExists "newWindow")
               (fun s => window_exists H s "newWindow") ;;
  (if stale : bool then run_ (DeleteUI "newWindow") else ret tt) ;;;
  new_window <- run (Window "Showcase" "Showcase" "Short Name" 800 600) ;;
  run_ PaneLayout ;;;
  panel <- run (ModelPanel "Camera View") ;;
  run_ (ModelPanelCamera panel camera) ;;;
  run_ (ModelEditor panel [("allObjects"%string, Py.FBool false)]) ;;;
  run_ (ModelEditor panel [("polymeshes"%string, Py.FBool true)]) ;;;
  run_ (ModelEditor panel [("motionTrails"%string, Py.FBool true)]) ;;;
  run_ (ModelEditor panel [("grid"%string, Py.FBool false)]) ;;;
  run_ (ModelEditor panel [("displayAppearance"%string, Py.FStr "smoothShaded");
                           ("displayTextures"%string, Py.FBool true)]) ;;;
  run_ (ModelEditor panel [("nurbsCurves"%string, Py.FBool false)]) ;;;
  run_ (ShowWindow new_window) ;;;
  run_ (LookThru camera) ;;;
  run_ (Select initial_selection) ;;;
  run_ (ViewFit 0.5).

(** The body of [for mesh in selected_meshes:] in copy [i] (0-based). *)
Definition duplicate_mesh (i : Z) (group_node mesh : string) : M unit :=
  duplicated_mesh <- run (Duplicate mesh) ;;
  let mesh_name := mesh_name_of mesh in
  duplicated_mesh <- run (Rename duplicated_mesh (duplicate_name mesh (i + 1))) ;;
  blend_shape_node <-
    run (BlendShape mesh duplicated_mesh (group_node ++ "_BS")%string true) ;;
  run_ (SetAttr (blend_shape_node ++ "." ++ mesh_name)%string [Py.Int 1]) ;;;
  run_ (Parent duplicated_mesh group_node).

(** Rotation and position of the control circle of copy [i].  In the
    showcase branch [i] ranges over [range(4)], within both tables. *)
Definition place_control (num_copies : Z) (showcase_setup : bool)
           (width height depth : float) (i : Z) (circle_control : string)
  : M unit :=
  if showcase_setup && (num_copies =? 4) then
    let off := nth (Z.to_nat i) offset_positions (0, 0)%float in
    let '(rx, ry, rz) := nth (Z.to_nat i) rotation_values (0, 0, 0) in
    run_ (Rotate (Py.Int rx) (Py.Int ry) (Py.Int rz) circle_control) ;;;
    run_ (Move (Py.Float (fst off * width)) (Py.Float (snd off * height))
               (Py.Float (Py.float_of_Z (-2) * depth)) circle_control true)
  else
    run_ (Move (Py.Float (1.1 * width * Py.float_of_Z (i + 1)))
               (Py.Int 0) (Py.Int 0) circle_control true).

(** The body of [for i in range(num_copies):]. *)
Definition duplicate_group (num_copies : Z) (scale_factor : float)
           (showcase_setup : bool) (selected_meshes : list string)
           (parent_group : string) (width height depth : float) (i : Z)
  : M unit :=
  group_node <- run (GroupEmpty (group_name (i + 1))) ;;
  for_each selected_meshes (duplicate_mesh i group_node) ;;;
  circle_control <-
    run (Circle (group_node ++ "_ctrl")%string (0, 1, 0) (width / 2.0)) ;;
  run_ (Scale scale_factor scale_factor scale_factor circle_control) ;;;
  run_ (SetAttr (circle_control ++ ".overrideEnabled")%string [Py.Int 1]) ;;;
  run_ (SetAttr (circle_control ++ ".overrideRGBColors")%string [Py.Int 1]) ;;;
  run_ (SetAttr (circle_control ++ ".overrideColorRGB")%string
                [Py.Int 1; Py.Int 1; Py.Int 0]) ;;;
  place_control num_copies showcase_setup width height depth i circle_control ;;;
  run_ (ParentConstraint circle_control group_node) ;;;
  run_ (ScaleConstraint circle_control group_node) ;;;
  run_ (Parent circle_control parent_group) ;;;
  run_ (Parent group_node parent_group).

(** The function from [if cmds.objExists("BB_Duplicates_Grp"):] to its
    end, reached once both guards have let the call through. *)
Definition build (num_copies : Z) (scale_factor : float)
           (showcase_setup : bool) (initial_selection selected_meshes : list string)
           (width height depth : float) : M unit :=
  present <- ask (ObjExists parent_group_name)
                 (fun s => obj_exists H s parent_group_name) ;;
  (if present : bool then remove_duplicates else ret tt) ;;;
  parent_group <- run (GroupEmpty parent_group_name) ;;
  (if showcase_setup
   then create_showcase initial_selection parent_group height depth
   else ret tt) ;;;
  for_each (Py.range num_copies)
           (duplicate_group num_copies scale_factor showcase_setup
                            selected_meshes parent_group width height depth) ;;;
  run_ (Select initial_selection).

Definition warning_dialog : dialog :=
  Warning "Warning" "Please select a mesh.".

Definition confirmation_dialog : dialog :=
  Question "Confirmation"
    "You're about to create a large number of duplicates. Are you sure you want to do this?".

(** [selected_meshes], after the [cmds.nodeType] filter. *)
Definition select_meshes : M (list string) :=
  shapes <- ask LsSelectedShapes (ls_selected_shapes H) ;;
  filter_m (fun node =>
              t <- ask (NodeType node) (fun s => node_type H s node) ;;
              ret (is_mesh_type t))
           shapes.

Definition duplicate_and_deform (num_copies : Z) (scale_factor : float)
           (showcase_setup : bool) : M unit :=
  initial_selection <- ask LsSelection (ls_selection H) ;;
  selected_meshes <- select_meshes ;;
  match selected_meshes with
  | [] => show warning_dialog (fun _ => tt)
  | _ :: _ =>
      whd <- calculate_bounding_box selected_meshes ;;
      let '(width, height, depth) := whd in
      go_on <- (if num_copies >? 10 then
                  reply <- show confirmation_dialog (question_reply H) ;;
                  ret (negb (StandardButton_eqb reply No))
                else ret true) ;;
      if go_on : bool then
        build num_copies scale_factor showcase_setup
              initial_selection selected_meshes width height depth
      else ret tt
  end.

End Script.

Arguments ret {H A} a _.
Arguments bind {H A B} m k _.
Arguments value {H A} r.
Arguments final {H A} r.
Arguments trace {H A} r.

(** ** A reference host

    A small executable scene graph, enough to run the script on concrete
    scenes: named nodes with a type, a parent and a bounding box, a
    selection, the open windows and the answer the user gives when asked.
    Deleting a node deletes what is below it, a blend shape counting as below
    the mesh it deforms; creating a node selects it; name patterns are
    matched case-sensitively against node names. *)

Module Reference.

Record node : Type := mkNode {
  name : string;
  kind : string;
  parent : option string;
  box : BBox
}.

Record state : Type := mkState {
  nodes : list node;
  selected : list string;
  windows : list string;
  reply : StandardButton;
  fresh : nat
}.

Definition no_box : BBox := mkBBox 0 0 0 0 0 0.

Definition mem (x : string) (xs : list string) : bool :=
  existsb (String.eqb x) xs.

Definition find_node (ns : list node) (n : string) : option node :=
  find (fun nd => String.eqb (name nd) n) ns.

Definition parent_of (ns : list node) (n : string) : option string :=
  match find_node ns n with
  | Some nd => parent nd
  | None => None
  end.

(** [n] is one of [roots] or lies below one of them. *)
Fixpoint at_or_under (fuel : nat) (ns : list node) (roots : list string)
         (n : string) : bool :=
  mem n roots ||
  match fuel with
  | O => false
  | S fuel' =>
      match parent_of ns n with
      | Some p => at_or_under fuel' ns roots p
      | None => false
      end
  end.

(** Name patterns with the wildcard [*]. *)
Fixpoint glob (p : string) : string -> bool :=
  match p with
  | EmptyString =>
      fun s => match s with EmptyString => true | String _ _ => false end
  | String c p' =>
      if Ascii.eqb c "*" then
        fix star (s : string) : bool :=
          glob p' s ||
          match s with
          | EmptyString => false
          | String _ s' => star s'
          end
      else
        fun s =>
          match s with
          | EmptyString => false
          | String c' s' => Ascii.eqb c c' && glob p' s'
          end
  end.

Definition is_shape (k : string) : bool :=
  negb (String.eqb k "transform") && negb (String.eqb k "blendShape").

Definition names (ns : list node) : list string := map name ns.

Definition names_of_kind (k : string) (s : list node) : list string :=
  names (filter (fun nd => String.eqb (kind nd) k) s).

Definition decimal (n : nat) : string :=
  NilEmpty.string_of_uint (Nat.to_uint n).

Definition add (nd : node) (s : state) : state :=
  mkState (nodes s ++ [nd]) [name nd] (windows s) (reply s) (fresh s).

Definition set_nodes (ns : list node) (s : state) : state :=
  mkState ns (selected s) (windows s) (reply s) (fresh s).

Definition step (c : command) (s : state) : string * state :=
  match c with
  | Delete targets =>
      let gone n := at_or_under (List.length (nodes s)) (nodes s) targets n in
      (EmptyString,
       mkState (filter (fun nd => negb (gone (name nd))) (nodes s))
               (filter (fun n => negb (gone n)) (selected s))
               (windows s) (reply s) (fresh s))
  | GroupEmpty n => (n, add (mkNode n "transform" None no_box) s)
  | Camera n =>
      (n, add (mkNode n "transform" None no_box)
              (add (mkNode (n ++ "Shape") "camera" (Some n) no_box) s))
  | Circle n _ _ =>
      (n, add (mkNode n "transform" None no_box)
              (add (mkNode (n ++ "Shape") "nurbsCurve" (Some n) no_box) s))
  | BlendShape _ target n _ =>
      (n, add (mkNode n "blendShape" (Some target) no_box) s)
  | Duplicate x =>
      let copy := ("copy" ++ decimal (fresh s))%string in
      let b := match find_node (nodes s) x with
               | Some nd => box nd
               | None => no_box
               end in
      let k := match find_node (nodes s) x with
               | Some nd => if is_shape (kind nd) then kind nd else "mesh"%string
               | None => "mesh"%string
               end in
      (copy,
       mkState (nodes s ++ [mkNode (copy ++ "Shape") k (Some copy) b;
                            mkNode copy "transform" None b])
               [copy] (windows s) (reply s) (S (fresh s)))
  | Rename old new =>
      let swap n := if String.eqb n old then new else n in
      (new,
       mkState (map (fun nd => mkNode (swap (name nd)) (kind nd)
                                      (option_map swap (parent nd)) (box nd))
                    (nodes s))
               (map swap (selected s)) (windows s) (reply s) (fresh s))
  | Parent child p =>
      (child,
       set_nodes (map (fun nd => if String.eqb (name nd) child
                                 then mkNode (name nd) (kind nd) (Some p) (box nd)
                                 else nd)
                      (nodes s)) s)
  | Select l =>
      (EmptyString, mkState (nodes s) l (windows s) (reply s) (fresh s))
  | Window n _ _ _ _ =>
      (n, mkState (nodes s) (selected s) (n :: windows s) (reply s) (fresh s))
  | DeleteUI n =>
      (EmptyString,
       mkState (nodes s) (selected s)
               (filter (fun w => negb (String.eqb w n)) (windows s))
               (reply s) (fresh s))
  | ModelPanel _ => ("modelPanel1"%string, s)
  | _ => (EmptyString, s)
  end.

Definition host : Host :=
  mkHost
    selected
    (fun s =>
       names (filter (fun nd => is_shape (kind nd) &&
                                at_or_under (List.length (nodes s)) (nodes s)
                                            (selected s) (name nd))
                     (nodes s)))
    (fun s n => match find_node (nodes s) n with
                | Some nd => kind nd
                | None => EmptyString
                end)
    (fun s n => match find_node (nodes s) n with
                | Some nd => box nd
                | None => no_box
                end)
    (fun s n => mem n (names (nodes s)))
    (fun s pats ty =>
       names (filter (fun nd => existsb (fun p => glob p (name nd)) pats &&
                                match ty with
                                | Some t => String.eqb (kind nd) t
                                | None => true
                                end)
                     (nodes s)))
    (fun s w => mem w (windows s))
    reply
    step.

(** A unit sphere at the origin, selected by its transform. *)
Definition sphere_scene (answer : StandardButton) : state :=
  mkState
    [mkNode "pSphere1" "transform" None (mkBBox (-1) (-1) (-1) 1 1 1);
     mkNode "pSphereShape1" "mesh" (Some "pSphere1"%string)
            (mkBBox (-1) (-1) (-1) 1 1 1)]
    ["pSphere1"%string] [] answer 0.

(** The sphere and a box beside it, both selected. *)
Definition pair_scene (answer : StandardButton) : state :=
  mkState
    [mkNode "pSphere1" "transform" None (mkBBox (-1) (-1) (-1) 1 1 1);
     mkNode "pSphereShape1" "mesh" (Some "pSphere1"%string)
            (mkBBox (-1) (-1) (-1) 1 1 1);
     mkNode "pCube1" "transform" None (mkBBox 2 0 (-3) 4 5 0.5);
     mkNode "pCubeShape1" "mesh" (Some "pCube1"%string)
            (mkBBox 2 0 (-3) 4 5 0.5)]
    ["pSphere1"%string; "pCube1"%string] [] answer 0.

(** A scene whose selection holds a camera and no mesh. *)
Definition camera_scene : state :=
  mkState
    [mkNode "persp" "transform" None no_box;
     mkNode "perspShape" "camera" (Some "persp"%string) no_box]
    ["persp"%string] [] Yes 0.


End Reference.

(** ** Reading traces *)

Definition command_of (e : event) : option command :=
  match e with
  | Did c | Made c _ => Some c
  | Asked _ | Showed _ => None
  end.

Definition dialog_of (e : event) : option dialog :=
  match e with
  | Showed d => Some d
  | _ => None
  end.

Definition keep {A} (f : event -> option A) (t : list event) : list A :=
  flat_map (fun e => match f e with Some a => [a] | None => [] end) t.

(** The commands of a trace, and its dialogs, in order. *)
Definition commands (t : list event) : list command := keep command_of t.
Definition dialogs (t : list event) : list dialog := keep dialog_of t.

(** The names of the groups a trace asks the host to create. *)
Definition group_requests (t : list event) : list string :=
  keep (fun e => match command_of e with
                 | Some (GroupEmpty n) => Some n
                 | _ => None
                 end) t.

(** Commands that create a copy: a duplicate, a blend shape, or a group
    other than the parent group and the showcase group. *)
Definition creates_copy (c : command) : bool :=
  match c with
  | Duplicate _ | BlendShape _ _ _ _ => true
  | GroupEmpty n =>
      negb (String.eqb n parent_group_name) && negb (String.eqb n showcase_group_name)
  | _ => false
  end.

(** Commands that create a node inside the loop over the copies. *)
Definition creates_loop_node (c : command) : bool :=
  match c with
  | Duplicate _ | BlendShape _ _ _ _ | Circle _ _ _
  | ParentConstraint _ _ | ScaleConstraint _ _ => true
  | GroupEmpty n =>
      negb (String.eqb n parent_group_name) && negb (String.eqb n showcase_group_name)
  | _ => false
  end.

(** Commands that build the showcase: the camera, the showcase group, the
    viewer window and its panel. *)
Definition builds_showcase (c : command) : bool :=
  match c with
  | Camera _ | Window _ _ _ _ _ | PaneLayout | ModelPanel _
  | ModelPanelCamera _ _ | ModelEditor _ _ | ShowWindow _ => true
  | GroupEmpty n => String.eqb n showcase_group_name
  | _ => false
  end.

Definition moves_or_rotates (c : command) : bool :=
  match c with
  | Move _ _ _ _ _ | Rotate _ _ _ _ => true
  | _ => false
  end.

Definition event_is (p : command -> bool) (e : event) : bool :=
  match command_of e with
  | Some c => p c
  | None => false
  end.

(** No event of [t] is a command satisfying [p]. *)
Definition free_of (p : command -> bool) (t : list event) : bool :=
  negb (existsb (event_is p) t).

(** Every showcase command of [t] comes after every node the loop creates:
    no loop creation follows a showcase command. *)
Fixpoint showcase_after_loop (t : list event) : bool :=
  match t with
  | [] => true
  | e :: rest =>
      (if event_is builds_showcase e then free_of creates_loop_node rest else true)
      && showcase_after_loop rest
  end.

(** ** What the script reads, as functions of the scene *)

Section Readings.

Variable H : Host.

(** [selected_meshes]: the selected shapes of type mesh or nurbsSurface. *)
Definition meshes_of (s : scene H) : list string :=
  filter (fun node => is_mesh_type (node_type H s node)) (ls_selected_shapes H s).

Definition extents (e : extrema) : float * float * float :=
  (x_max e - x_min e, y_max e - y_min e, z_max e - z_min e)%float.

(** [width, height, depth] of the meshes, read in scene [s]. *)
Definition bounding_box_of (s : scene H) (meshes : list string)
  : float * float * float :=
  extents (fold_left extrema_step (map (world_bbox H s) meshes) extrema_init).

Definition width_of (s : scene H) : float :=
  fst (fst (bounding_box_of s (meshes_of s))).
Definition height_of (s : scene H) : float :=
  snd (fst (bounding_box_of s (meshes_of s))).
Definition depth_of (s : scene H) : float :=
  snd (bounding_box_of s (meshes_of s)).

(** Both guards let the call through: a mesh is selected, and the user
    confirms when more than ten copies are asked for. *)
Definition guards_pass (num_copies : Z) (s : scene H) : Prop :=
  meshes_of s <> [] /\ (10 < num_copies -> question_reply H s = Yes).

(** The queries that read and filter the selection. *)
Definition selection_queries (s : scene H) : list event :=
  Asked LsSelection :: Asked LsSelectedShapes ::
  map (fun node => Asked (NodeType node)) (ls_selected_shapes H s).

Definition bbox_queries (meshes : list string) : list event :=
  map (fun mesh => Asked (ExactWorldBoundingBox mesh)) meshes.

(** The calls of [remove_duplicates] from scene [s]; the second listing is
    answered in the scene the first deletion leaves. *)
Definition cleanup_events (s : scene H) : list event :=
  let targets :=
    ls_matching H s ["*BB_Duplicate_Mesh*dup*"%string] (Some "transform"%string) ++
    ls_matching H s ["*BB_Duplicate_Mesh*ctrl*"%string] (Some "transform"%string) ++
    ls_matching H s ["*BB_Duplicate_Mesh*bs*"%string] (Some "blendShape"%string) in
  let s' := snd (exec H (Delete targets) s) in
  [Asked (Ls ["*BB_Duplicate_Mesh*dup*"%string] (Some "transform"%string));
   Asked (Ls ["*BB_Duplicate_Mesh*ctrl*"%string] (Some "transform"%string));
   Asked (Ls ["*BB_Duplicate_Mesh*bs*"%string] (Some "blendShape"%string));
   Did (Delete targets);
   Asked (Ls ["BB_Duplicates_Grp"%string; "BB_Duplicate_Showcase_Grp"%string] None);
   Did (Delete (ls_matching H s'
                  ["BB_Duplicates_Grp"%string; "BB_Duplicate_Showcase_Grp"%string] None))].

End Readings.

Arguments meshes_of {H} s.
Arguments bounding_box_of {H} s meshes.
Arguments width_of {H} s.
Arguments height_of {H} s.
Arguments depth_of {H} s.
Arguments guards_pass {H} num_copies s.
Arguments selection_queries {H} s.
Arguments cleanup_events {H} s.

(** ** The shape of the calls made for one copy *)

(** The calls for one mesh of copy [k] (1-based) under group [group_node];
    [copy], [duplicate] and [bs] are the names the host returned. *)
Definition mesh_events (k : Z) (group_node mesh copy duplicate bs : string)
  : list event :=
  [Made (Duplicate mesh) copy;
   Made (Rename copy ("dup_" ++ mesh_name_of mesh ++ "_" ++ Py.format_02d k)%string)
        duplicate;
   Made (BlendShape mesh duplicate (group_node ++ "_BS")%string true) bs;
   Did (SetAttr (bs ++ "." ++ mesh_name_of mesh)%string [Py.Int 1]);
   Did (Parent duplicate group_node)].

Definition mesh_block (k : Z) (group_node mesh : string) (t : list event) : Prop :=
  exists copy duplicate bs, t = mesh_events k group_node mesh copy duplicate bs.

(** Rotation and move of the control circle of copy [i] (0-based). *)
Definition placement_events (num_copies : Z) (showcase_setup : bool)
           (width height depth : float) (i : Z) (circle : string) : list event :=
  if showcase_setup && (num_copies =? 4) then
    let off := nth (Z.to_nat i) offset_positions (0, 0)%float in
    let '(rx, ry, rz) := nth (Z.to_nat i) rotation_values (0, 0, 0) in
    [Did (Rotate (Py.Int rx) (Py.Int ry) (Py.Int rz) circle);
     Did (Move (Py.Float (fst off * width)) (Py.Float (snd off * height))
               (Py.Float (Py.float_of_Z (-2) * depth)) circle true)]
  else
    [Did (Move (Py.Float (1.1 * width * Py.float_of_Z (i + 1)))
               (Py.Int 0) (Py.Int 0) circle true)].

(** The calls that create, colour, place and attach the control circle. *)
Definition control_events (scale_factor width : float)
           (parent_group group_node circle : string) (placement : list event)
  : list event :=
  [Made (Circle (group_node ++ "_ctrl")%string (0, 1, 0) (width / 2)) circle;
   Did (Scale scale_factor scale_factor scale_factor circle);
   Did (SetAttr (circle ++ ".overrideEnabled")%string [Py.Int 1]);
   Did (SetAttr (circle ++ ".overrideRGBColors")%string [Py.Int 1]);
   Did (SetAttr (circle ++ ".overrideColorRGB")%string [Py.Int 1; Py.Int 1; Py.Int 0])]
  ++ placement ++
  [Did (ParentConstraint circle group_node);
   Did (ScaleConstraint circle group_node);
   Did (Parent circle parent_group);
   Did (Parent group_node parent_group)].

(** The trace of copy [i]: its group, one block per mesh, its control. *)
Definition group_trace (num_copies : Z) (scale_factor : float)
           (showcase_setup : bool) (meshes : list string) (parent_group : string)
           (width height depth : float) (i : Z) (t : list event) : Prop :=
  exists group_node blocks circle,
    Forall2 (mesh_block (i + 1) group_node) meshes blocks /\
    t = Made (GroupEmpty (group_name (i + 1))) group_node ::
        List.concat blocks ++
        control_events scale_factor width parent_group group_node circle
          (placement_events num_copies showcase_setup width height depth i circle).

(** The calls of the showcase block; [camera], [new_window] and [panel]
    are the names the host returned, [old_cameras] the nodes it listed as
    renderCam and [stale] its answer about the window newWindow. *)
Definition showcase_events (initial_selection : list string) (parent_group : string)
           (height depth : float) (old_cameras : list string) (stale : bool)
           (camera new_window panel : string) : list event :=
  [Asked (Ls ["renderCam"%string] None);
   Did (Delete old_cameras);
   Made (Camera "renderCam") camera;
   Did (Move (Py.Int 0) (Py.Float (0.5 * height))
             (Py.Float (Py.float_of_Z 6 * depth)) camera false);
   Did (GroupEmpty showcase_group_name);
   Did (Parent camera showcase_group_name);
   Did (Parent parent_group camera);
   Asked (WindowExists "newWindow")]
  ++ (if stale then [Did (DeleteUI "newWindow")] else []) ++
  [Made (Window "Showcase" "Showcase" "Short Name" 800 600) new_window;
   Did PaneLayout;
   Made (ModelPanel "Camera View") panel;
   Did (ModelPanelCamera panel camera);
   Did (ModelEditor panel [("allObjects"%string, Py.FBool false)]);
   Did (ModelEditor panel [("polymeshes"%string, Py.FBool true)]);
   Did (ModelEditor panel [("motionTrails"%string, Py.FBool true)]);
   Did (ModelEditor panel [("grid"%string, Py.FBool false)]);
   Did (ModelEditor panel [("displayAppearance"%string, Py.FStr "smoothShaded");
                           ("displayTextures"%string, Py.FBool true)]);
   Did (ModelEditor panel [("nurbsCurves"%string, Py.FBool false)]);
   Did (ShowWindow new_window);
   Did (LookThru camera);
   Did (Select initial_selection);
   Did (ViewFit 0.5)].

Definition showcase_part (showcase_setup : bool) (initial_selection : list string)
           (parent_group : string) (height depth : float) (t : list event) : Prop :=
  if showcase_setup then
    exists old_cameras stale camera new_window panel,
      t = showcase_events initial_selection parent_group height depth
                          old_cameras stale camera new_window panel
  else t = [].

(** ** Extrema of lists of floats *)

Definition is_minimum (v : float) (xs : list float) : Prop :=
  In v xs /\ forall x, In x xs -> (v <=? x)%float = true.

Definition is_maximum (v : float) (xs : list float) : Prop :=
  In v xs /\ forall x, In x xs -> (x <=? v)%float = true.

(** A bounding box whose six coordinates are numbers. *)
Definition numeric_box (b : BBox) : Prop :=
  is_nan (bbox0 b) = false /\ is_nan (bbox1 b) = false /\ is_nan (bbox2 b) = false /\
  is_nan (bbox3 b) = false /\ is_nan (bbox4 b) = false /\ is_nan (bbox5 b) = false.

Definition number (x : float) : Prop := is_nan x = false.

(** Commands issued inside a copy, the creation of its group apart. *)
Definition inner_command (c : command) : bool :=
  match c with
  | Duplicate _ | Rename _ _ | BlendShape _ _ _ _ | SetAttr _ _ | Parent _ _
  | Circle _ _ _ | Scale _ _ _ _ | Rotate _ _ _ _ | Move _ _ _ _ _
  | ParentConstraint _ _ | ScaleConstraint _ _ => true
  | _ => false
  end.

(** Commands of the showcase block. *)
Definition showcase_step (c : command) : bool :=
  match c with
  | Delete _ | Camera _ | Move _ _ _ _ _ | Parent _ _ | DeleteUI _
  | Window _ _ _ _ _ | PaneLayout | ModelPanel _ | ModelPanelCamera _ _
  | ModelEditor _ _ | ShowWindow _ | LookThru _ | Select _ | ViewFit _ => true
  | GroupEmpty n => String.eqb n showcase_group_name
  | _ => false
  end.

(** Everything the script calls before it creates the parent group. *)
Definition head_events {H : Host} (num_copies : Z) (s : scene H) : list event :=
  selection_queries s ++ bbox_queries (meshes_of s) ++
  (if num_copies >? 10 then [Showed confirmation_dialog] else []) ++
  Asked (ObjExists parent_group_name) ::
  (if obj_exists H s parent_group_name then cleanup_events s else []).

(** ** The claims, as predicates on traces *)

(** Copy [i] (0-based): its group is created, then every selected mesh is
    duplicated and blended in turn; nothing after that creates a copy. *)
Definition copy_trace (meshes : list string) (i : Z) (t : list event) : Prop :=
  exists group_node blocks rest,
    t = Made (GroupEmpty (group_name (i + 1))) group_node ::
        List.concat blocks ++ rest /\
    Forall2 (mesh_block (i + 1) group_node) meshes blocks /\
    free_of creates_copy rest = true.

(** Copy [i] (0-based) has a control circle of radius [width / 2] scaled by
    [scale_factor]; the circle drives the group through a parent and a scale
    constraint, and circle and group are parented under [parent_group]. *)
Definition makes_control (c : command) : bool :=
  match c with
  | Circle _ _ _ | ParentConstraint _ _ | ScaleConstraint _ _ => true
  | _ => false
  end.

Definition controlled (scale_factor width : float) (parent_group : string)
           (i : Z) (t : list event) : Prop :=
  exists group_node body circle mid,
    t = Made (GroupEmpty (group_name (i + 1))) group_node :: body ++
        [Made (Circle (group_node ++ "_ctrl")%string (0, 1, 0) (width / 2)) circle;
         Did (Scale scale_factor scale_factor scale_factor circle)] ++ mid ++
        [Did (ParentConstraint circle group_node);
         Did (ScaleConstraint circle group_node);
         Did (Parent circle parent_group);
         Did (Parent group_node parent_group)] /\
    free_of makes_control body = true /\
    free_of makes_control mid = true.

(** Copy [i] (0-based) rotates and moves its control circle by the showcase
    tables when the showcase is set up for four copies, and only moves it
    along x otherwise. *)
Definition placed (num_copies : Z) (showcase_setup : bool)
           (width height depth : float) (i : Z) (t : list event) : Prop :=
  exists group_node circle pre placement post,
    t = Made (GroupEmpty (group_name (i + 1))) group_node ::
        pre ++ placement ++ post /\
    In (Made (Circle (group_node ++ "_ctrl")%string (0, 1, 0) (width / 2)) circle) pre /\
    free_of moves_or_rotates pre = true /\
    free_of moves_or_rotates post = true /\
    (showcase_setup = true -> num_copies = 4 ->
     exists rx ry rz ox oy,
       nth_error [(0, 90, 0); (0, -90, 0); (0, 0, 0); (0, 180, 0)] (Z.to_nat i)
         = Some (rx, ry, rz) /\
       nth_error [(1.0, 0.7); (-1.0, 0.7); (1.0, 0.0); (-1.0, 0.0)]%float (Z.to_nat i)
         = Some (ox, oy) /\
       placement =
         [Did (Rotate (Py.Int rx) (Py.Int ry) (Py.Int rz) circle);
          Did (Move (Py.Float (ox * width)) (Py.Float (oy * height))
                    (Py.Float ((-2) * depth)) circle true)]) /\
    (showcase_setup = false \/ num_copies <> 4 ->
     placement =
       [Did (Move (Py.Float (1.1 * width * Py.float_of_Z (i + 1)))
                  (Py.Int 0) (Py.Int 0) circle true)]).

(** Commands that create the camera, the showcase group or the window. *)
Definition creates_showcase_node (c : command) : bool :=
  match c with
  | Camera _ | Window _ _ _ _ _ => true
  | GroupEmpty n => String.eqb n showcase_group_name
  | _ => false
  end.

(** No showcase command follows a node the loop creates: the showcase is
    built before the copies. *)
Fixpoint showcase_before_loop (t : list event) : bool :=
  match t with
  | [] => true
  | e :: rest =>
      (if event_is creates_loop_node e then free_of builds_showcase rest else true)
      && showcase_before_loop rest
  end.


Definition creates_parent_group (c : command) : bool :=
  match c with
  | GroupEmpty n => String.eqb n parent_group_name
  | _ => false
  end.


(** [cmds.select(l)] makes [l] the selection. *)
Definition select_selects (H : Host) : Prop :=
  forall (l : list string) (s : scene H),
    ls_selection H (snd (exec H (Select l) s)) = l.

(** ** The window's slider handler *)

Section Window.

Variable H : Host.

(** [MainWindow.on_scale_changed(self, value)]: [value] is the position of
    the scale slider, an int between the minimum 1 and the maximum 150 that
    [__init__] sets; [value / 50.0] converts it with [Py.float_of_Z], which is
    Python's conversion for such positions (and for every |value| < 2^63). *)
Definition on_scale_changed (value : Z) : M H unit :=
  let scale_factor := (Py.float_of_Z value / 50.0)%float in
  bind (ask H (Ls ["*BB_Duplicate_Mesh*ctrl*"%string] (Some "transform"%string))
            (fun s => ls_matching H s ["*BB_Duplicate_Mesh*ctrl*"%string]
                                  (Some "transform"%string)))
       (fun all_ctrl_circles =>
          for_each all_ctrl_circles
                   (fun ctrl_circle =>
                      run_ H (Scale scale_factor scale_factor scale_factor ctrl_circle))).

End Window.

(** ** More readings of strings, floats and traces *)

(** The character [c] occurs in [s]. *)
Definition occurs (c : ascii) (s : string) : Prop :=
  In c (list_ascii_of_string s).

(** The entries of a list of floats that are numbers. *)
Definition numbers (xs : list float) : list float :=
  filter (fun x => negb (is_nan x)) xs.

(** [v] is the least number of [xs], or [d] when [xs] holds no number. *)
Definition least_or (d : float) (xs : list float) (v : float) : Prop :=
  (numbers xs = [] /\ v = d) \/ (numbers xs <> [] /\ is_minimum v (numbers xs)).

Definition greatest_or (d : float) (xs : list float) (v : float) : Prop :=
  (numbers xs = [] /\ v = d) \/ (numbers xs <> [] /\ is_maximum v (numbers xs)).

(** How many events of [t] are commands satisfying [p]. *)
Definition count_of (p : command -> bool) (t : list event) : nat :=
  List.length (filter (event_is p) t).

Definition is_duplicate (c : command) : bool :=
  match c with Duplicate _ => true | _ => false end.
Definition is_rename (c : command) : bool :=
  match c with Rename _ _ => true | _ => false end.
Definition is_blend_shape (c : command) : bool :=
  match c with BlendShape _ _ _ _ => true | _ => false end.
Definition is_circle (c : command) : bool :=
  match c with Circle _ _ _ => true | _ => false end.
Definition is_constraint (c : command) : bool :=
  match c with ParentConstraint _ _ | ScaleConstraint _ _ => true | _ => false end.

(** The decimal digits of [|n|], as ["{:d}"] prints them. *)
Definition digits (n : Z) : string :=
  NilEmpty.string_of_uint (N.to_uint (Z.abs_N n)).

(** ** The scene a call leaves *)





(** What [remove_duplicates] deletes first, as listed in scene [s]. *)
Definition cleanup_targets {H : Host} (s : scene H) : list string :=
  ls_matching H s ["*BB_Duplicate_Mesh*dup*"%string] (Some "transform"%string) ++
  ls_matching H s ["*BB_Duplicate_Mesh*ctrl*"%string] (Some "transform"%string) ++
  ls_matching H s ["*BB_Duplicate_Mesh*bs*"%string] (Some "blendShape"%string).

(** The scene [remove_duplicates] leaves: the two groups are listed, and
    deleted, in the scene the first deletion leaves. *)
Definition after_cleanup {H : Host} (s : scene H) : scene H :=
  let s1 := snd (exec H (Delete (cleanup_targets s)) s) in
  snd (exec H (Delete (ls_matching H s1
                         ["BB_Duplicates_Grp"%string; "BB_Duplicate_Showcase_Grp"%string]
                         None)) s1).

(** The scene in which a call that passes the guards creates the parent
    group: the scene it was given, cleaned up when the parent group exists. *)
Definition cleaned {H : Host} (s : scene H) : scene H :=
  if obj_exists H s parent_group_name then after_cleanup s else s.


(** [x] starts like the name of a copy group. *)
Definition copy_group_like (x : string) : bool :=
  String.prefix "BB_Duplicate_Mesh_" x.


(** * Properties *)

Unset Implicit Arguments.

(** ** The order of binary64 floats *)

Section FloatOrder.

Local Open Scope float_scope.

Ltac compare_cases :=
  repeat match goal with
  | H : context [Z.compare ?a ?b] |- _ =>
      destruct (Z.compare_spec a b); try discriminate
  | |- context [Z.compare ?a ?b] =>
      destruct (Z.compare_spec a b); try lia
  | H : context [Pos.compare_cont Eq ?a ?b] |- _ =>
      change (Pos.compare_cont Eq a b) with (Pos.compare a b) in H;
      destruct (Pos.compare_spec a b); try discriminate
  | |- context [Pos.compare_cont Eq ?a ?b] =>
      change (Pos.compare_cont Eq a b) with (Pos.compare a b);
      destruct (Pos.compare_spec a b); try lia
  end; subst; try reflexivity; try discriminate; try lia.

Lemma SFleb_trans a b c :
  SFleb a b = true -> SFleb b c = true -> SFleb a c = true.
Proof.
  unfold SFleb.
  destruct a as [[]|[]| |[] m1 e1], b as [[]|[]| |[] m2 e2],
           c as [[]|[]| |[] m3 e3];
    simpl; try discriminate; try reflexivity; intros; compare_cases.
Qed.

Lemma SFltb_leb a b : SFltb a b = true -> SFleb a b = true.
Proof. unfold SFltb, SFleb. destruct (SFcompare a b) as [[]|]; congruence. Qed.

Lemma SFleb_total a b :
  a <> S754_nan -> b <> S754_nan -> SFltb b a = false -> SFleb a b = true.
Proof.
  unfold SFleb, SFltb.
  destruct a as [[]|[]| |[] m1 e1], b as [[]|[]| |[] m2 e2];
    simpl; try discriminate; try reflexivity; try congruence; intros;
    compare_cases.
Qed.

Lemma SFleb_refl a : a <> S754_nan -> SFleb a a = true.
Proof.
  unfold SFleb. destruct a as [[]|[]| |[] m1 e1]; simpl; try congruence; intros;
    rewrite Z.compare_refl;
    change (Pos.compare_cont Eq m1 m1) with (Pos.compare m1 m1);
    rewrite Pos.compare_refl; reflexivity.
Qed.

Lemma is_nan_spec x : is_nan x = false -> Prim2SF x <> S754_nan.
Proof.
  unfold is_nan. rewrite eqb_spec. intros E N. rewrite N in E. discriminate.
Qed.

Lemma leb_refl x : is_nan x = false -> (x <=? x) = true.
Proof. intro Hx. rewrite leb_spec. apply SFleb_refl, is_nan_spec, Hx. Qed.

Lemma leb_trans x y z : (x <=? y) = true -> (y <=? z) = true -> (x <=? z) = true.
Proof. rewrite !leb_spec. apply SFleb_trans. Qed.

Lemma ltb_leb x y : (x <? y) = true -> (x <=? y) = true.
Proof. rewrite ltb_spec, leb_spec. apply SFltb_leb. Qed.

Lemma not_ltb_leb x y :
  is_nan x = false -> is_nan y = false -> (y <? x) = false -> (x <=? y) = true.
Proof.
  intros Hx Hy. rewrite ltb_spec, leb_spec.
  apply SFleb_total; apply is_nan_spec; assumption.
Qed.

(** A number that is not below [infinity] is [infinity]. *)
Lemma not_below_infinity x :
  is_nan x = false -> (x <? infinity) = false -> x = infinity.
Proof.
  intros Hx. rewrite ltb_spec. apply is_nan_spec in Hx. intro Hlt.
  apply Prim2SF_inj. change (Prim2SF infinity) with (S754_infinity false).
  destruct (Prim2SF x) as [[]|[]| |[] m e]; simpl in Hlt;
    try discriminate; congruence.
Qed.

Lemma not_above_neg_infinity x :
  is_nan x = false -> (neg_infinity <? x) = false -> x = neg_infinity.
Proof.
  intros Hx. rewrite ltb_spec. apply is_nan_spec in Hx. intro Hlt.
  apply Prim2SF_inj. change (Prim2SF neg_infinity) with (S754_infinity true).
  destruct (Prim2SF x) as [[]|[]| |[] m e]; simpl in Hlt;
    try discriminate; congruence.
Qed.

Lemma min_cases a b : Py.min a b = a \/ Py.min a b = b.
Proof. unfold Py.min. destruct (b <? a); auto. Qed.

Lemma max_cases a b : Py.max a b = a \/ Py.max a b = b.
Proof. unfold Py.max. destruct (a <? b); auto. Qed.

Lemma min_below a b :
  is_nan a = false -> is_nan b = false ->
  (Py.min a b <=? a) = true /\ (Py.min a b <=? b) = true.
Proof.
  intros Ha Hb. unfold Py.min. destruct (b <? a) eqn:E.
  - split; [apply ltb_leb, E | apply leb_refl, Hb].
  - split; [apply leb_refl, Ha | apply not_ltb_leb; assumption].
Qed.

Lemma max_above a b :
  is_nan a = false -> is_nan b = false ->
  (a <=? Py.max a b) = true /\ (b <=? Py.max a b) = true.
Proof.
  intros Ha Hb. unfold Py.max. destruct (a <? b) eqn:E.
  - split; [apply ltb_leb, E | apply leb_refl, Hb].
  - split; [apply leb_refl, Ha | apply not_ltb_leb; assumption].
Qed.

Lemma fold_min_from (xs : list float) (a : float) :
  number a -> Forall number xs ->
  is_minimum (fold_left Py.min xs a) (a :: xs).
Proof.
  revert a; induction xs as [|y xs IH]; intros a Ha Hxs.
  - split; [left; reflexivity|]. intros x [<-|[]]. apply leb_refl, Ha.
  - inversion Hxs as [|? ? Hy Hxs']; subst. cbn [fold_left].
    assert (Hm : number (Py.min a y))
      by (destruct (min_cases a y) as [-> | ->]; assumption).
    destruct (IH (Py.min a y) Hm Hxs') as [Hin Hle].
    destruct (min_below a y Ha Hy) as [La Ly].
    split.
    + destruct Hin as [E|Hin]; [|right; right; exact Hin].
      rewrite <- E. destruct (min_cases a y) as [-> | ->];
        [left | right; left]; reflexivity.
    + intros x [<-|[<-|Hx]].
      * eapply leb_trans; [apply Hle; left; reflexivity | exact La].
      * eapply leb_trans; [apply Hle; left; reflexivity | exact Ly].
      * apply Hle. right; exact Hx.
Qed.

Lemma fold_max_from (xs : list float) (a : float) :
  number a -> Forall number xs ->
  is_maximum (fold_left Py.max xs a) (a :: xs).
Proof.
  revert a; induction xs as [|y xs IH]; intros a Ha Hxs.
  - split; [left; reflexivity|]. intros x [<-|[]]. apply leb_refl, Ha.
  - inversion Hxs as [|? ? Hy Hxs']; subst. cbn [fold_left].
    assert (Hm : number (Py.max a y))
      by (destruct (max_cases a y) as [-> | ->]; assumption).
    destruct (IH (Py.max a y) Hm Hxs') as [Hin Hle].
    destruct (max_above a y Ha Hy) as [La Ly].
    split.
    + destruct Hin as [E|Hin]; [|right; right; exact Hin].
      rewrite <- E. destruct (max_cases a y) as [-> | ->];
        [left | right; left]; reflexivity.
    + intros x [<-|[<-|Hx]].
      * eapply leb_trans; [exact La | apply Hle; left; reflexivity].
      * eapply leb_trans; [exact Ly | apply Hle; left; reflexivity].
      * apply Hle. right; exact Hx.
Qed.

(** Started at [inf], the running minimum of a non-empty list of numbers
    is the least of them. *)
Lemma fold_min_infinity (x : float) (xs : list float) :
  Forall number (x :: xs) ->
  is_minimum (fold_left Py.min (x :: xs) infinity) (x :: xs).
Proof.
  intro Hxs. inversion Hxs as [|? ? Hx Hxs']; subst. cbn [fold_left].
  assert (E : Py.min infinity x = x).
  { unfold Py.min. destruct (x <? infinity) eqn:E; [reflexivity|].
    symmetry. apply not_below_infinity; assumption. }
  rewrite E. apply fold_min_from; assumption.
Qed.

Lemma fold_max_neg_infinity (x : float) (xs : list float) :
  Forall number (x :: xs) ->
  is_maximum (fold_left Py.max (x :: xs) neg_infinity) (x :: xs).
Proof.
  intro Hxs. inversion Hxs as [|? ? Hx Hxs']; subst. cbn [fold_left].
  assert (E : Py.max neg_infinity x = x).
  { unfold Py.max. destruct (neg_infinity <? x) eqn:E; [reflexivity|].
    symmetry. apply not_above_neg_infinity; assumption. }
  rewrite E. apply fold_max_from; assumption.
Qed.

(** The six running extrema are six independent folds. *)
Lemma fold_extrema (boxes : list BBox) (e : extrema) :
  fold_left extrema_step boxes e =
  mkExtrema (fold_left Py.min (map bbox0 boxes) (x_min e))
            (fold_left Py.min (map bbox1 boxes) (y_min e))
            (fold_left Py.min (map bbox2 boxes) (z_min e))
            (fold_left Py.max (map bbox3 boxes) (x_max e))
            (fold_left Py.max (map bbox4 boxes) (y_max e))
            (fold_left Py.max (map bbox5 boxes) (z_max e)).
Proof.
  revert e; induction boxes as [|b boxes IH]; intro e.
  - destruct e; reflexivity.
  - cbn [fold_left map]. rewrite IH. reflexivity.
Qed.

(** The coordinates of boxes that hold numbers are numbers. *)
Lemma numeric_coordinates (boxes : list BBox) :
  Forall numeric_box boxes ->
  Forall number (map bbox0 boxes) /\ Forall number (map bbox1 boxes) /\
  Forall number (map bbox2 boxes) /\ Forall number (map bbox3 boxes) /\
  Forall number (map bbox4 boxes) /\ Forall number (map bbox5 boxes).
Proof.
  induction 1 as [|b boxes (H0 & H1 & H2 & H3 & H4 & H5) _
                    (I0 & I1 & I2 & I3 & I4 & I5)].
  - repeat split; constructor.
  - repeat split; constructor; assumption.
Qed.

End FloatOrder.

(** ** Running computations *)

Section Lemmas.

Variable H : Host.

Lemma bind_run A B (m : M H A) (k : A -> M H B) (s : scene H) :
  bind m k s =
  (value (k (value (m s)) (final (m s))),
   final (k (value (m s)) (final (m s))),
   trace (m s) ++ trace (k (value (m s)) (final (m s)))).
Proof.
  unfold bind, value, final, trace.
  destruct (m s) as [[a s1] t1]; simpl.
  destruct (k a s1) as [[b s2] t2]; reflexivity.
Qed.

Lemma bind_trace A B (m : M H A) (k : A -> M H B) (s : scene H) :
  trace (bind m k s) = trace (m s) ++ trace (k (value (m s)) (final (m s))).
Proof. rewrite bind_run; reflexivity. Qed.

Lemma bind_final A B (m : M H A) (k : A -> M H B) (s : scene H) :
  final (bind m k s) = final (k (value (m s)) (final (m s))).
Proof. rewrite bind_run; reflexivity. Qed.

Lemma run_eq (c : command) (s : scene H) :
  run H c s = (fst (exec H c s), snd (exec H c s), [Made c (fst (exec H c s))]).
Proof. unfold run; destruct (exec H c s); reflexivity. Qed.

Lemma run__eq (c : command) (s : scene H) :
  run_ H c s = (tt, snd (exec H c s), [Did c]).
Proof. unfold run_; destruct (exec H c s); reflexivity. Qed.

(** The selection filter only asks, and computes [meshes_of]. *)
Lemma filter_m_node_type (xs : list string) (s : scene H) :
  filter_m (fun node =>
              bind (ask H (NodeType node) (fun s => node_type H s node))
                   (fun t => ret (is_mesh_type t))) xs s =
  (filter (fun node => is_mesh_type (node_type H s node)) xs, s,
   map (fun node => Asked (NodeType node)) xs).
Proof.
  induction xs as [|x xs IH]; [reflexivity|].
  cbn [filter_m]. rewrite bind_run.
  cbn [bind ask ret value final trace fst snd app].
  rewrite bind_run, IH. cbn. now rewrite app_nil_r.
Qed.

Lemma select_meshes_run (s : scene H) :
  select_meshes H s =
  (meshes_of s, s,
   Asked LsSelectedShapes ::
   map (fun node => Asked (NodeType node)) (ls_selected_shapes H s)).
Proof.
  unfold select_meshes. rewrite bind_run. cbn [ask value final trace fst snd].
  rewrite filter_m_node_type. reflexivity.
Qed.

Lemma fold_m_bbox (meshes : list string) (e : extrema) (s : scene H) :
  fold_m (fun e mesh =>
            bind (ask H (ExactWorldBoundingBox mesh) (fun s => world_bbox H s mesh))
                 (fun bbox => ret (extrema_step e bbox))) e meshes s =
  (fold_left extrema_step (map (world_bbox H s) meshes) e, s, bbox_queries meshes).
Proof.
  revert e; induction meshes as [|m ms IH]; intro e; [reflexivity|].
  cbn [fold_m]. rewrite bind_run.
  cbn [bind ask ret value final trace fst snd app]. rewrite IH. reflexivity.
Qed.

Lemma calculate_bounding_box_run (meshes : list string) (s : scene H) :
  calculate_bounding_box H meshes s =
  (bounding_box_of s meshes, s, bbox_queries meshes).
Proof.
  unfold calculate_bounding_box. rewrite bind_run, fold_m_bbox.
  cbn [value final trace fst snd ret]. rewrite app_nil_r. reflexivity.
Qed.

(** ** Facts about traces *)

Lemma keep_app A (f : event -> option A) (t u : list event) :
  keep f (t ++ u) = keep f t ++ keep f u.
Proof. unfold keep. apply flat_map_app. Qed.

Lemma keep_none A (f : event -> option A) (t : list event) :
  Forall (fun e => f e = None) t -> keep f t = [].
Proof.
  induction 1 as [|e t He _ IH]; [reflexivity|].
  unfold keep in *. cbn [flat_map]. now rewrite He, IH.
Qed.

Lemma free_of_app (p : command -> bool) (t u : list event) :
  free_of p (t ++ u) = free_of p t && free_of p u.
Proof. unfold free_of. rewrite existsb_app. apply negb_orb. Qed.

Lemma free_of_forall (p : command -> bool) (t : list event) :
  Forall (fun e => event_is p e = false) t -> free_of p t = true.
Proof.
  unfold free_of. induction 1 as [|e t He _ IH]; [reflexivity|].
  cbn [existsb]. rewrite He. exact IH.
Qed.

Lemma filter_none (p : event -> bool) (t : list event) :
  Forall (fun e => p e = false) t -> filter p t = [].
Proof.
  induction 1 as [|e t He _ IH]; [reflexivity|].
  cbn [filter]. now rewrite He.
Qed.

Lemma Forall_asked A (Q : event -> Prop) (q : A -> query) (xs : list A) :
  (forall x, Q (Asked (q x))) -> Forall Q (map (fun x => Asked (q x)) xs).
Proof. intro HQ. apply Forall_forall. intros e He. apply in_map_iff in He.
       destruct He as [x [<- _]]. apply HQ. Qed.

Lemma Forall_concat A (Q : A -> Prop) (ls : list (list A)) :
  Forall (Forall Q) ls -> Forall Q (List.concat ls).
Proof.
  induction 1 as [|l ls Hl _ IH]; [constructor|].
  cbn [List.concat]. apply Forall_app. split; assumption.
Qed.

Lemma Forall2_right A B (P : A -> B -> Prop) (Q : B -> Prop) xs ys :
  (forall x y, P x y -> Q y) -> Forall2 P xs ys -> Forall Q ys.
Proof. intros HPQ. induction 1; constructor; eauto. Qed.

Lemma Forall2_weaken A B (P Q : A -> B -> Prop) xs ys :
  (forall x y, In x xs -> P x y -> Q x y) -> Forall2 P xs ys -> Forall2 Q xs ys.
Proof.
  intros HPQ F. induction F as [|x y xs ys Hxy F IH]; constructor.
  - apply HPQ; [left; reflexivity | exact Hxy].
  - apply IH. intros x' y' Hin. apply HPQ. right; exact Hin.
Qed.

Lemma range_spec (n i : Z) : In i (Py.range n) <-> 0 <= i < n.
Proof.
  unfold Py.range. rewrite in_map_iff. split.
  - intros [k [<- Hk]]. apply in_seq in Hk. lia.
  - intros Hi. exists (Z.to_nat i). split; [lia|]. apply in_seq. lia.
Qed.

Lemma range_length (n : Z) : 0 <= n -> Z.of_nat (List.length (Py.range n)) = n.
Proof. intro Hn. unfold Py.range. rewrite length_map, length_seq. lia. Qed.

Lemma mesh_blocks_inner k g meshes blocks :
  Forall2 (mesh_block k g) meshes blocks ->
  Forall (fun e => event_is inner_command e = true) (List.concat blocks).
Proof.
  intro F. apply Forall_concat.
  apply (Forall2_right _ _ (mesh_block k g) _ meshes); [|exact F].
  intros mesh t [copy [dup [bs ->]]]. repeat constructor.
Qed.

Lemma placement_inner n sc w h d i circle :
  Forall (fun e => event_is inner_command e = true)
         (placement_events n sc w h d i circle).
Proof.
  unfold placement_events. destruct (sc && (n =? 4)).
  - destruct (nth (Z.to_nat i) rotation_values (0, 0, 0)) as [[rx ry] rz].
    repeat constructor.
  - repeat constructor.
Qed.

Lemma control_inner sf w pg g circle placement :
  Forall (fun e => event_is inner_command e = true) placement ->
  Forall (fun e => event_is inner_command e = true)
         (control_events sf w pg g circle placement).
Proof.
  intro Hp. unfold control_events.
  apply Forall_app; split; [repeat constructor|].
  apply Forall_app; split; [exact Hp | repeat constructor].
Qed.

(** A copy's trace is the creation of its group followed by inner
    commands only. *)
Lemma group_trace_inner n sf sc meshes pg w h d i t :
  group_trace n sf sc meshes pg w h d i t ->
  exists g rest,
    t = Made (GroupEmpty (group_name (i + 1))) g :: rest /\
    Forall (fun e => event_is inner_command e = true) rest.
Proof.
  intros [g [blocks [circle [F ->]]]]. exists g; eexists; split; [reflexivity|].
  apply Forall_app; split.
  - eapply mesh_blocks_inner; eassumption.
  - apply control_inner, placement_inner.
Qed.

(** The trace of a loop is the concatenation of the traces of its
    iterations, each run from the scene the previous one left. *)
Lemma for_each_trace A (P : A -> list event -> Prop) (body : A -> M H unit) :
  (forall x s, P x (trace (body x s))) ->
  forall xs s, exists ts,
    trace (for_each xs body s) = List.concat ts /\ Forall2 P xs ts.
Proof.
  intros HP xs; induction xs as [|x xs IH]; intro s.
  - exists []; split; [reflexivity | constructor].
  - cbn [for_each]. rewrite bind_trace.
    destruct (IH (final (body x s))) as [ts [Et Ft]].
    exists (trace (body x s) :: ts); split.
    + cbn [List.concat]. now rewrite Et.
    + constructor; [apply HP | exact Ft].
Qed.

Lemma duplicate_mesh_trace (i : Z) (group_node mesh : string) (s : scene H) :
  mesh_block (i + 1) group_node mesh (trace (duplicate_mesh H i group_node mesh s)).
Proof.
  unfold duplicate_mesh, mesh_block, mesh_events.
  repeat (rewrite bind_trace || rewrite bind_run || rewrite run_eq || rewrite run__eq
          || cbn [value final trace fst snd app]).
  eexists _, _, _. reflexivity.
Qed.

Lemma place_control_trace (n : Z) (sc : bool) (w h d : float) (i : Z)
      (circle : string) (s : scene H) :
  trace (place_control H n sc w h d i circle s) =
  placement_events n sc w h d i circle.
Proof.
  unfold place_control, placement_events.
  destruct (sc && (n =? 4)).
  - destruct (nth (Z.to_nat i) rotation_values (0, 0, 0)) as [[rx ry] rz].
    rewrite bind_trace, !run__eq. reflexivity.
  - rewrite run__eq. reflexivity.
Qed.

Lemma duplicate_group_trace (n : Z) (sf : float) (sc : bool)
      (meshes : list string) (pg : string) (w h d : float) (i : Z) (s : scene H) :
  group_trace n sf sc meshes pg w h d i
              (trace (duplicate_group H n sf sc meshes pg w h d i s)).
Proof.
  unfold duplicate_group, group_trace.
  rewrite bind_trace, run_eq. cbn [value final trace fst snd].
  set (g := fst (exec H (GroupEmpty (group_name (i + 1))) s)).
  set (s1 := snd (exec H (GroupEmpty (group_name (i + 1))) s)).
  rewrite bind_trace.
  destruct (for_each_trace _ (mesh_block (i + 1) g) (duplicate_mesh H i g)
              (fun mesh s' => duplicate_mesh_trace i g mesh s') meshes s1)
    as [blocks [Eb Fb]].
  rewrite Eb.
  set (s2 := final (for_each meshes (duplicate_mesh H i g) s1)).
  exists g, blocks, (fst (exec H (Circle (g ++ "_ctrl") (0, 1, 0) (w / 2)) s2)).
  split; [exact Fb|].
  unfold control_events.
  repeat (rewrite bind_trace || rewrite bind_final || rewrite run_eq || rewrite run__eq
          || rewrite place_control_trace
          || cbn [value final trace fst snd]).
  reflexivity.
Qed.

(** Run the next command: name its result and the scene it leaves. *)
Ltac next_command :=
  match goal with
  | |- context [exec H ?c ?s] =>
      let r := fresh "r" in
      let s' := fresh "s" in
      destruct (exec H c s) as [r s']; cbv beta iota
  end.

Ltac run_all :=
  cbv beta iota zeta delta [bind run run_ ask show ret value final trace fst snd];
  repeat next_command.

Lemma remove_duplicates_trace (s : scene H) :
  trace (remove_duplicates H s) = cleanup_events s.
Proof. unfold remove_duplicates, cleanup_events. run_all. reflexivity. Qed.

Lemma create_showcase_trace (sel : list string) (pg : string) (h d : float)
      (s : scene H) :
  showcase_part true sel pg h d (trace (create_showcase H sel pg h d s)).
Proof.
  unfold create_showcase, showcase_part, showcase_events.
  cbv beta iota zeta delta [bind run run_ ask show ret value final trace fst snd].
  repeat next_command.
  match goal with
  | |- context [window_exists H ?x ?w] => destruct (window_exists H x w)
  end; repeat next_command.
  - eexists _, true, _, _, _. reflexivity.
  - eexists _, false, _, _, _. reflexivity.
Qed.

(** The calls of [build], in order: the existence test, the cleanup when
    the parent group exists, the parent group, the showcase block, one
    trace per copy, and the final selection. *)
Lemma build_trace (n : Z) (sf : float) (sc : bool) (sel meshes : list string)
      (w h d : float) (s : scene H) :
  exists pg showcase groups,
    trace (build H n sf sc sel meshes w h d s) =
      Asked (ObjExists parent_group_name) ::
      (if obj_exists H s parent_group_name then cleanup_events s else []) ++
      Made (GroupEmpty parent_group_name) pg ::
      showcase ++ List.concat groups ++ [Did (Select sel)] /\
    showcase_part sc sel pg h d showcase /\
    Forall2 (group_trace n sf sc meshes pg w h d) (Py.range n) groups.
Proof.
  unfold build.
  rewrite bind_trace. cbn [ask value final trace fst snd].
  rewrite bind_trace.
  set (s1 := final ((if obj_exists H s parent_group_name
                     then remove_duplicates H else ret tt) s)).
  rewrite bind_trace, run_eq. cbn [value final trace fst snd].
  set (pg := fst (exec H (GroupEmpty parent_group_name) s1)).
  set (s2 := snd (exec H (GroupEmpty parent_group_name) s1)).
  rewrite bind_trace.
  set (s3 := final ((if sc then create_showcase H sel pg h d else ret tt) s2)).
  rewrite bind_trace, run__eq. cbn [value final trace fst snd].
  destruct (for_each_trace _ (group_trace n sf sc meshes pg w h d)
              (duplicate_group H n sf sc meshes pg w h d)
              (fun i s0 => duplicate_group_trace n sf sc meshes pg w h d i s0)
              (Py.range n) s3) as [groups [Eg Fg]].
  exists pg, (trace ((if sc then create_showcase H sel pg h d else ret tt) s2)), groups.
  split; [|split; [|exact Fg]].
  - rewrite Eg. cbn [app]. f_equal.
    destruct (obj_exists H s parent_group_name).
    + rewrite remove_duplicates_trace. reflexivity.
    + reflexivity.
  - destruct sc; [apply create_showcase_trace | reflexivity].
Qed.

(** The three ways a call can go. *)
Lemma run_without_mesh (n : Z) (sf : float) (sc : bool) (s : scene H) :
  meshes_of s = [] ->
  duplicate_and_deform H n sf sc s =
  (tt, s, selection_queries s ++ [Showed warning_dialog]).
Proof.
  intro E. unfold duplicate_and_deform.
  rewrite bind_run. cbn [ask value final trace fst snd].
  rewrite bind_run, select_meshes_run. cbn [value final trace fst snd].
  rewrite E. reflexivity.
Qed.

Lemma run_declined (n : Z) (sf : float) (sc : bool) (s : scene H) :
  meshes_of s <> [] -> 10 < n -> question_reply H s = No ->
  duplicate_and_deform H n sf sc s =
  (tt, s, selection_queries s ++ bbox_queries (meshes_of s) ++
          [Showed confirmation_dialog]).
Proof.
  intros E Hn Hr. unfold duplicate_and_deform.
  rewrite bind_run. cbn [ask value final trace fst snd].
  rewrite bind_run, select_meshes_run. cbn [value final trace fst snd].
  destruct (meshes_of s) as [|m ms] eqn:Em; [congruence|].
  rewrite bind_run, calculate_bounding_box_run. cbn [value final trace fst snd].
  destruct (bounding_box_of s (m :: ms)) as [[w h] d].
  apply Z.gtb_lt in Hn. rewrite Hn.
  rewrite bind_run. rewrite bind_run. cbn [show ret value final trace fst snd].
  rewrite Hr. reflexivity.
Qed.

Lemma run_through (n : Z) (sf : float) (sc : bool) (s : scene H) :
  guards_pass n s ->
  let r := build H n sf sc (ls_selection H s) (meshes_of s)
                 (width_of s) (height_of s) (depth_of s) s in
  duplicate_and_deform H n sf sc s =
  (tt, final r,
   selection_queries s ++ bbox_queries (meshes_of s) ++
   (if n >? 10 then [Showed confirmation_dialog] else []) ++ trace r).
Proof.
  intros [E Hr]. unfold duplicate_and_deform, width_of, height_of, depth_of.
  rewrite bind_run. cbn [ask value final trace fst snd].
  rewrite bind_run, select_meshes_run. cbn [value final trace fst snd].
  destruct (meshes_of s) as [|m ms] eqn:Em; [congruence|].
  rewrite bind_run, calculate_bounding_box_run. cbn [value final trace fst snd].
  destruct (bounding_box_of s (m :: ms)) as [[w h] d]. cbn [fst snd].
  rewrite bind_run.
  destruct (n >? 10) eqn:En.
  - apply Z.gtb_lt in En.
    rewrite bind_run. cbn [show ret value final trace fst snd].
    rewrite (Hr En). cbn [StandardButton_eqb negb].
    destruct (build H n sf sc (ls_selection H s) (m :: ms) w h d s) as [[[] s'] t'].
    reflexivity.
  - cbn [ret value final trace fst snd].
    destruct (build H n sf sc (ls_selection H s) (m :: ms) w h d s) as [[[] s'] t'].
    reflexivity.
Qed.

(** ** The whole call *)

Lemma run_shape (n : Z) (sf : float) (sc : bool) (s : scene H) :
  guards_pass n s ->
  exists pg showcase groups,
    trace (duplicate_and_deform H n sf sc s) =
      head_events n s ++
      Made (GroupEmpty parent_group_name) pg ::
      showcase ++ List.concat groups ++ [Did (Select (ls_selection H s))] /\
    showcase_part sc (ls_selection H s) pg (height_of s) (depth_of s) showcase /\
    Forall2 (group_trace n sf sc (meshes_of s) pg
                         (width_of s) (height_of s) (depth_of s))
            (Py.range n) groups.
Proof.
  intro G. rewrite (run_through n sf sc s G).
  destruct (build_trace n sf sc (ls_selection H s) (meshes_of s)
              (width_of s) (height_of s) (depth_of s) s)
    as [pg [showcase [groups [Et [Hs Fg]]]]].
  exists pg, showcase, groups. split; [|split; assumption].
  cbn [trace snd]. rewrite Et. unfold head_events.
  rewrite <- !app_assoc. reflexivity.
Qed.

(** Before the parent group the script asks, shows and deletes only. *)
Lemma head_events_quiet (p : command -> bool) (n : Z) (s : scene H) :
  (forall l, p (Delete l) = false) ->
  Forall (fun e => event_is p e = false) (head_events n s).
Proof.
  intro Hp. unfold head_events, selection_queries, bbox_queries.
  assert (A : forall q, event_is p (Asked q) = false) by reflexivity.
  apply Forall_app; split.
  { do 2 (apply Forall_cons; [apply A|]).
    apply Forall_asked with (q := NodeType). intro; apply A. }
  apply Forall_app; split.
  { apply Forall_asked with (q := ExactWorldBoundingBox). intro; apply A. }
  apply Forall_app; split.
  { destruct (n >? 10); repeat constructor. }
  apply Forall_cons; [apply A|].
  destruct (obj_exists H s parent_group_name); [|constructor].
  unfold cleanup_events.
  repeat (apply Forall_cons; [first [apply A | apply Hp]|]). constructor.
Qed.

Lemma head_events_requests (n : Z) (s : scene H) :
  group_requests (head_events n s) = [].
Proof.
  apply keep_none.
  eapply Forall_impl; [|apply (head_events_quiet (fun c => match c with
                                      | GroupEmpty _ => true | _ => false end) n s);
                        reflexivity].
  intros [q|d0|c|c r]; try reflexivity; destruct c; cbn; congruence.
Qed.

Lemma showcase_part_requests sc sel pg h d t :
  showcase_part sc sel pg h d t ->
  group_requests t = (if sc then [showcase_group_name] else []).
Proof.
  destruct sc; cbn [showcase_part].
  - intros [old [stale [camera [w [panel ->]]]]]. now destruct stale.
  - now intros ->.
Qed.

Lemma showcase_part_free (p : command -> bool) sc sel pg h d t :
  showcase_part sc sel pg h d t ->
  (forall c, showcase_step c = true -> p c = false) ->
  free_of p t = true.
Proof.
  intros Hs Hp.
  assert (D : forall c, showcase_step c = true -> event_is p (Did c) = false)
    by exact Hp.
  assert (M : forall c r, showcase_step c = true -> event_is p (Made c r) = false)
    by (intros c r; exact (Hp c)).
  destruct sc; cbn [showcase_part] in Hs; [|subst t; reflexivity].
  destruct Hs as [old [stale [camera [w [panel ->]]]]].
  apply free_of_forall. unfold showcase_events.
  destruct stale;
    repeat (apply Forall_cons;
            [first [reflexivity | apply D; reflexivity | apply M; reflexivity]|]);
    constructor.
Qed.

Lemma groups_requests n sf sc meshes pg w h d ixs groups :
  Forall2 (group_trace n sf sc meshes pg w h d) ixs groups ->
  group_requests (List.concat groups) = map (fun i => group_name (i + 1)) ixs.
Proof.
  induction 1 as [|i t ixs groups Ht _ IH]; [reflexivity|].
  cbn [List.concat map]. unfold group_requests in *. rewrite keep_app, IH.
  destruct (group_trace_inner _ _ _ _ _ _ _ _ _ _ Ht) as [g [rest [-> Hrest]]].
  change (keep ?f (?e :: rest)) with (keep f [e] ++ keep f rest).
  rewrite (keep_none _ _ rest); [reflexivity|].
  eapply Forall_impl; [|exact Hrest].
  intros [q|d0|c|c r]; try reflexivity; destruct c; cbn; congruence.
Qed.

Lemma groups_free (p : command -> bool) n sf sc meshes pg w h d ixs groups :
  Forall2 (group_trace n sf sc meshes pg w h d) ixs groups ->
  (forall e, event_is inner_command e = true -> event_is p e = false) ->
  (forall k, p (GroupEmpty (group_name k)) = false) ->
  free_of p (List.concat groups) = true.
Proof.
  intros F Hin Hg. apply free_of_forall, Forall_concat.
  apply (Forall2_right _ _ (group_trace n sf sc meshes pg w h d) _ ixs);
    [|exact F].
  intros i t Ht. destruct (group_trace_inner _ _ _ _ _ _ _ _ _ _ Ht) as [g [rest [-> Hrest]]].
  constructor; [apply Hg|]. eapply Forall_impl; [|exact Hrest]. exact Hin.
Qed.

Lemma group_trace_copy n sf sc meshes pg w h d i t :
  group_trace n sf sc meshes pg w h d i t -> copy_trace meshes i t.
Proof.
  intros [g [blocks [circle [F ->]]]]. exists g, blocks; eexists.
  split; [reflexivity|]. split; [exact F|].
  apply free_of_forall. unfold control_events, placement_events.
  destruct (sc && (n =? 4));
    [destruct (nth (Z.to_nat i) rotation_values (0, 0, 0)) as [[rx ry] rz]|];
    repeat constructor.
Qed.

Lemma mesh_blocks_forall (Q : event -> Prop) k g meshes blocks :
  (forall mesh copy dup bs, Forall Q (mesh_events k g mesh copy dup bs)) ->
  Forall2 (mesh_block k g) meshes blocks ->
  Forall Q (List.concat blocks).
Proof.
  intros HQ F. apply Forall_concat.
  apply (Forall2_right _ _ (mesh_block k g) _ meshes); [|exact F].
  intros mesh t [copy [dup [bs ->]]]. apply HQ.
Qed.

Lemma groups_forall (Q : event -> Prop) n sf sc meshes pg w h d ixs groups :
  Forall2 (group_trace n sf sc meshes pg w h d) ixs groups ->
  (forall e, event_is inner_command e = true -> Q e) ->
  (forall k g, Q (Made (GroupEmpty (group_name k)) g)) ->
  Forall Q (List.concat groups).
Proof.
  intros F Hin Hg. apply Forall_concat.
  apply (Forall2_right _ _ (group_trace n sf sc meshes pg w h d) _ ixs);
    [|exact F].
  intros i t Ht.
  destruct (group_trace_inner _ _ _ _ _ _ _ _ _ _ Ht) as [g [rest [-> Hrest]]].
  constructor; [apply Hg|]. eapply Forall_impl; [|exact Hrest]. exact Hin.
Qed.

Lemma showcase_part_forall (Q : event -> Prop) sc sel pg h d t :
  showcase_part sc sel pg h d t ->
  (forall q, Q (Asked q)) ->
  (forall c, showcase_step c = true -> Q (Did c)) ->
  (forall c r, showcase_step c = true -> Q (Made c r)) ->
  Forall Q t.
Proof.
  intros Hs A D M.
  destruct sc; cbn [showcase_part] in Hs; [|subst t; constructor].
  destruct Hs as [old [stale [camera [w [panel ->]]]]].
  unfold showcase_events.
  destruct stale;
    repeat (apply Forall_cons;
            [first [apply A | apply D; reflexivity | apply M; reflexivity]|]);
    constructor.
Qed.

(** The script shows no dialog once it starts building. *)
Lemma build_dialogs n sf sc sel meshes w h d (s : scene H) :
  dialogs (trace (build H n sf sc sel meshes w h d s)) = [].
Proof.
  destruct (build_trace n sf sc sel meshes w h d s)
    as [pg [showcase [groups [-> [Hs Fg]]]]].
  apply keep_none.
  apply Forall_cons; [reflexivity|]. apply Forall_app; split.
  { destruct (obj_exists H s parent_group_name); repeat constructor. }
  apply Forall_cons; [reflexivity|]. apply Forall_app; split.
  { apply (showcase_part_forall _ _ _ _ _ _ _ Hs); reflexivity. }
  apply Forall_app; split; [|repeat constructor].
  apply (groups_forall _ _ _ _ _ _ _ _ _ _ _ Fg); [|reflexivity].
  intros [q|d0|c|c r]; try reflexivity; discriminate.
Qed.

Lemma build_ends_selecting n sf sc sel meshes w h d (s : scene H) :
  exists s_last,
    final (build H n sf sc sel meshes w h d s) = snd (exec H (Select sel) s_last).
Proof.
  unfold build. rewrite !bind_final, run__eq. eexists. reflexivity.
Qed.

Lemma no_mesh_selected (s : scene H) :
  (forall node, In node (ls_selected_shapes H s) ->
     node_type H s node <> "mesh"%string /\
     node_type H s node <> "nurbsSurface"%string) ->
  meshes_of s = [].
Proof.
  unfold meshes_of. induction (ls_selected_shapes H s) as [|x xs IH]; intro Hx.
  - reflexivity.
  - cbn [filter]. destruct (Hx x (or_introl eq_refl)) as [Hm Hn].
    unfold is_mesh_type at 1.
    apply String.eqb_neq in Hm, Hn. rewrite Hm, Hn. cbn [orb].
    apply IH. intros node Hin. apply Hx. right; exact Hin.
Qed.

Lemma selection_queries_ask (Q : event -> Prop) (s : scene H) :
  (forall q, Q (Asked q)) -> Forall Q (selection_queries s).
Proof.
  intro A. unfold selection_queries. do 2 (apply Forall_cons; [apply A|]).
  apply Forall_asked with (q := NodeType). intro; apply A.
Qed.

Lemma bbox_queries_ask (Q : event -> Prop) (meshes : list string) :
  (forall q, Q (Asked q)) -> Forall Q (bbox_queries meshes).
Proof.
  intro A. apply Forall_asked with (q := ExactWorldBoundingBox). intro; apply A.
Qed.

Lemma showcase_before_loop_free (t : list event) :
  free_of builds_showcase t = true -> showcase_before_loop t = true.
Proof.
  induction t as [|e t IH]; [reflexivity|]. intro Hf.
  change (e :: t) with ([e] ++ t) in Hf. rewrite free_of_app in Hf.
  apply andb_prop in Hf. destruct Hf as [_ Ht].
  cbn [showcase_before_loop]. rewrite Ht, (IH Ht). now destruct (event_is _ e).
Qed.

Lemma showcase_before_loop_app (t u : list event) :
  free_of creates_loop_node t = true -> free_of builds_showcase u = true ->
  showcase_before_loop (t ++ u) = true.
Proof.
  intros Ht Hu. induction t as [|e t IH].
  - apply showcase_before_loop_free, Hu.
  - change (e :: t) with ([e] ++ t) in Ht. rewrite free_of_app in Ht.
    apply andb_prop in Ht. destruct Ht as [He Ht].
    cbn [app showcase_before_loop]. rewrite (IH Ht).
    unfold free_of in He. cbn [existsb] in He. rewrite orb_false_r in He.
    apply negb_true_iff in He. rewrite He. reflexivity.
Qed.

Lemma group_trace_controlled n sf sc meshes pg w h d i t :
  group_trace n sf sc meshes pg w h d i t -> controlled sf w pg i t.
Proof.
  intros [g [blocks [circle [F ->]]]].
  exists g, (List.concat blocks), circle,
    ([Did (SetAttr (circle ++ ".overrideEnabled")%string [Py.Int 1]);
      Did (SetAttr (circle ++ ".overrideRGBColors")%string [Py.Int 1]);
      Did (SetAttr (circle ++ ".overrideColorRGB")%string
                   [Py.Int 1; Py.Int 1; Py.Int 0])]
     ++ placement_events n sc w h d i circle).
  split; [|split].
  - unfold control_events. reflexivity.
  - apply free_of_forall.
    eapply mesh_blocks_forall; [|exact F]. intros; unfold mesh_events; repeat constructor.
  - apply free_of_forall. apply Forall_app; split; [repeat constructor|].
    unfold placement_events. destruct (sc && (n =? 4));
      [destruct (nth (Z.to_nat i) rotation_values (0, 0, 0)) as [[rx ry] rz]|];
      repeat constructor.
Qed.

Lemma group_trace_placed n sf sc meshes pg w h d i t :
  In i (Py.range n) ->
  group_trace n sf sc meshes pg w h d i t -> placed n sc w h d i t.
Proof.
  intros Hi [g [blocks [circle [F ->]]]].
  exists g, circle,
    (List.concat blocks ++
     [Made (Circle (g ++ "_ctrl")%string (0, 1, 0) (w / 2)) circle;
      Did (Scale sf sf sf circle);
      Did (SetAttr (circle ++ ".overrideEnabled")%string [Py.Int 1]);
      Did (SetAttr (circle ++ ".overrideRGBColors")%string [Py.Int 1]);
      Did (SetAttr (circle ++ ".overrideColorRGB")%string
                   [Py.Int 1; Py.Int 1; Py.Int 0])]),
    (placement_events n sc w h d i circle),
    [Did (ParentConstraint circle g); Did (ScaleConstraint circle g);
     Did (Parent circle pg); Did (Parent g pg)].
  split; [|split; [|split; [|split; [|split]]]].
  - unfold control_events. rewrite <- !app_assoc. reflexivity.
  - apply in_or_app. right. left. reflexivity.
  - rewrite free_of_app. apply andb_true_intro; split; [|reflexivity].
    apply free_of_forall.
    eapply mesh_blocks_forall; [|exact F]. intros; unfold mesh_events; repeat constructor.
  - reflexivity.
  - intros -> ->. apply range_spec in Hi.
    unfold placement_events. cbn [andb Z.eqb Pos.eqb].
    assert (C : i = 0 \/ i = 1 \/ i = 2 \/ i = 3) by lia.
    destruct C as [-> | [-> | [-> | ->]]];
      eexists _, _, _, _, _; (split; [reflexivity|]); (split; reflexivity).
  - intros Hc. unfold placement_events.
    assert (E : sc && (n =? 4) = false).
    { destruct Hc as [-> | Hn]; [reflexivity|].
      apply Z.eqb_neq in Hn. rewrite Hn. apply andb_false_r. }
    rewrite E. reflexivity.
Qed.

End Lemmas.

(** ** C1 *)

(** C1: when a mesh or nurbsSurface is selected and the copy count [n]
    passes the guards, the call creates the groups BB_Duplicate_Mesh_01 to
    BB_Duplicate_Mesh_n and no other copy group: its trace is a prefix that
    creates no copy, then one trace per copy, then the final selection; the
    trace of copy [i] creates its group and then, for every selected mesh in
    turn, duplicates the mesh, renames the duplicate, creates a blend shape
    from the mesh to the renamed duplicate and sets the weight named after
    the mesh to 1. *)
Theorem copies_created (H : Host) (n : Z) (sf : float) (sc : bool) (s : scene H) :
  guards_pass n s ->
  let t := trace (duplicate_and_deform H n sf sc s) in
  exists before groups,
    t = before ++ List.concat groups ++ [Did (Select (ls_selection H s))] /\
    free_of creates_copy before = true /\
    Forall2 (copy_trace (meshes_of s)) (Py.range n) groups /\
    (0 <= n -> Z.of_nat (List.length groups) = n) /\
    group_requests t =
      parent_group_name :: (if sc then [showcase_group_name] else []) ++
      map (fun i => group_name (i + 1)) (Py.range n).
Proof.
  intros G t. subst t.
  destruct (run_shape H n sf sc s G) as [pg [showcase [groups [Et [Hs Fg]]]]].
  exists (head_events n s ++ Made (GroupEmpty parent_group_name) pg :: showcase), groups.
  split; [|split; [|split; [|split]]].
  - rewrite Et, <- app_assoc. reflexivity.
  - rewrite free_of_app. apply andb_true_intro; split.
    + apply free_of_forall, head_events_quiet. reflexivity.
    + change (free_of creates_copy showcase = true).
      apply (showcase_part_free _ _ _ _ _ _ _ Hs).
      intros c; destruct c; cbn; try congruence.
      intro E; apply String.eqb_eq in E; subst; reflexivity.
  - eapply Forall2_weaken; [|exact Fg]. intros i u _. apply group_trace_copy.
  - intro Hn. rewrite <- (Forall2_length Fg). now apply range_length.
  - rewrite Et. unfold group_requests in *. rewrite keep_app.
    fold (group_requests (head_events n s)). rewrite head_events_requests.
    change (keep ?f (?e :: ?l)) with (keep f [e] ++ keep f l).
    rewrite !keep_app.
    fold (group_requests showcase). rewrite (showcase_part_requests _ _ _ _ _ _ Hs).
    fold (group_requests (List.concat groups)). rewrite (groups_requests _ _ _ _ _ _ _ _ _ _ Fg).
    cbn. now rewrite app_nil_r.
Qed.

(** ** C2 *)

(** C2: for a non-empty list of meshes whose bounding boxes hold numbers,
    calculate_bounding_box asks the host for each mesh's box once, in order,
    changes nothing, and returns (x1 - x0, y1 - y0, z1 - z0) where x0, y0, z0
    are the least of the meshes' xmin, ymin, zmin and x1, y1, z1 the greatest
    of their xmax, ymax, zmax. *)
Theorem bounding_box_extents (H : Host) (meshes : list string) (s : scene H) :
  meshes <> [] ->
  (forall mesh, In mesh meshes -> numeric_box (world_bbox H s mesh)) ->
  let boxes := map (world_bbox H s) meshes in
  let r := calculate_bounding_box H meshes s in
  exists x0 y0 z0 x1 y1 z1,
    is_minimum x0 (map bbox0 boxes) /\
    is_minimum y0 (map bbox1 boxes) /\
    is_minimum z0 (map bbox2 boxes) /\
    is_maximum x1 (map bbox3 boxes) /\
    is_maximum y1 (map bbox4 boxes) /\
    is_maximum z1 (map bbox5 boxes) /\
    value r = (x1 - x0, y1 - y0, z1 - z0)%float /\
    final r = s /\
    trace r = map (fun mesh => Asked (ExactWorldBoundingBox mesh)) meshes.
Proof.
  intros Hne Hnum boxes r. subst r.
  rewrite calculate_bounding_box_run. cbn [value final trace fst snd].
  unfold bounding_box_of, extents. fold boxes. rewrite fold_extrema.
  cbn [x_min y_min z_min x_max y_max z_max extrema_init].
  assert (Hn : Forall numeric_box boxes).
  { subst boxes. apply Forall_forall. intros b Hb. apply in_map_iff in Hb.
    destruct Hb as [m [<- Hm]]. apply Hnum, Hm. }
  assert (Hb : boxes <> [])
    by (subst boxes; destruct meshes; [congruence | discriminate]).
  clearbody boxes. destruct boxes as [|b boxes]; [congruence|].
  destruct (numeric_coordinates (b :: boxes) Hn) as (N0 & N1 & N2 & N3 & N4 & N5).
  eexists _, _, _, _, _, _.
  split; [exact (fold_min_infinity _ _ N0)|].
  split; [exact (fold_min_infinity _ _ N1)|].
  split; [exact (fold_min_infinity _ _ N2)|].
  split; [exact (fold_max_neg_infinity _ _ N3)|].
  split; [exact (fold_max_neg_infinity _ _ N4)|].
  split; [exact (fold_max_neg_infinity _ _ N5)|].
  repeat split.
Qed.

(** ** C3 *)

(** C3: when no selected shape is a mesh or a nurbsSurface, the call reads
    the selection, asks the type of every selected shape, shows the warning
    and returns: it runs no command and the scene is the one it started
    from. *)
Theorem no_mesh_selected_only_warns (H : Host) (n : Z) (sf : float) (sc : bool)
        (s : scene H) :
  (forall node, In node (ls_selected_shapes H s) ->
     node_type H s node <> "mesh"%string /\
     node_type H s node <> "nurbsSurface"%string) ->
  let r := duplicate_and_deform H n sf sc s in
  trace r = selection_queries s ++ [Showed warning_dialog] /\
  dialogs (trace r) = [warning_dialog] /\
  commands (trace r) = [] /\
  final r = s.
Proof.
  intros Hsel r. subst r.
  rewrite (run_without_mesh H n sf sc s (no_mesh_selected H s Hsel)).
  cbn [trace final fst snd]. repeat split.
  - unfold dialogs. rewrite keep_app, keep_none; [reflexivity|].
    apply selection_queries_ask. reflexivity.
  - unfold commands. rewrite keep_app, keep_none; [reflexivity|].
    apply selection_queries_ask. reflexivity.
Qed.

(** ** C4 *)

(** C4: with a mesh selected and more than ten copies asked for, the
    confirmation question is shown once; on No the call returns having run no
    command, the scene unchanged; on Yes it goes on to build.  With ten
    copies or fewer it shows no dialog and goes on to build.  Going on means
    that the rest of the trace and the final scene are those of [build], which
    creates the parent group. *)
Theorem confirmation_guard (H : Host) (n : Z) (sf : float) (sc : bool)
        (s : scene H) :
  meshes_of s <> [] ->
  let r := duplicate_and_deform H n sf sc s in
  let b := build H n sf sc (ls_selection H s) (meshes_of s)
                 (width_of s) (height_of s) (depth_of s) s in
  (10 < n -> question_reply H s = No ->
   dialogs (trace r) = [confirmation_dialog] /\
   commands (trace r) = [] /\
   final r = s) /\
  (10 < n -> question_reply H s = Yes ->
   dialogs (trace r) = [confirmation_dialog] /\
   trace r = selection_queries s ++ bbox_queries (meshes_of s) ++
             Showed confirmation_dialog :: trace b /\
   final r = final b) /\
  (n <= 10 ->
   dialogs (trace r) = [] /\
   trace r = selection_queries s ++ bbox_queries (meshes_of s) ++ trace b /\
   final r = final b) /\
  (exists pg, In (Made (GroupEmpty parent_group_name) pg) (trace b)).
Proof.
  intros Hm r b.
  assert (Qs : dialogs (selection_queries s) = [])
    by (apply keep_none, selection_queries_ask; reflexivity).
  assert (Qb : dialogs (bbox_queries (meshes_of s)) = [])
    by (apply keep_none, bbox_queries_ask; reflexivity).
  assert (Cs : commands (selection_queries s) = [])
    by (apply keep_none, selection_queries_ask; reflexivity).
  assert (Cb : commands (bbox_queries (meshes_of s)) = [])
    by (apply keep_none, bbox_queries_ask; reflexivity).
  assert (Db : dialogs (trace b) = []) by apply build_dialogs.
  split; [|split; [|split]].
  - intros Hn Hr. subst r. rewrite (run_declined H n sf sc s Hm Hn Hr).
    cbn [trace final fst snd]. unfold dialogs, commands in *.
    rewrite !keep_app, Qs, Qb, Cs, Cb. repeat split.
  - intros Hn Hr. subst r.
    rewrite (run_through H n sf sc s (conj Hm (fun _ => Hr))).
    apply Z.gtb_lt in Hn. rewrite Hn. cbn [trace final fst snd].
    fold b. unfold dialogs in *. rewrite !keep_app, Qs, Qb, Db. repeat split.
  - intros Hn. subst r.
    assert (G : guards_pass n s) by (split; [exact Hm | lia]).
    rewrite (run_through H n sf sc s G).
    assert (E : (n >? 10) = false) by (rewrite Z.gtb_ltb; apply Z.ltb_ge; lia).
    rewrite E. cbn [trace final fst snd app].
    fold b. unfold dialogs in *. rewrite !keep_app, Qs, Qb, Db. repeat split.
  - subst b.
    destruct (build_trace H n sf sc (ls_selection H s) (meshes_of s)
                (width_of s) (height_of s) (depth_of s) s)
      as [pg [showcase [groups [-> _]]]].
    exists pg. right. apply in_or_app. right. left. reflexivity.
Qed.

(** ** C10 *)

(** C10: a call that passes the guards first reads the selection and last of
    all selects what it read; on a host where selecting a list makes it the
    selection, the selection after the call is the selection before it. *)
Theorem selection_restored (H : Host) (n : Z) (sf : float) (sc : bool)
        (s : scene H) :
  guards_pass n s ->
  select_selects H ->
  let r := duplicate_and_deform H n sf sc s in
  (exists between,
     trace r = Asked LsSelection :: between ++ [Did (Select (ls_selection H s))]) /\
  ls_selection H (final r) = ls_selection H s.
Proof.
  intros G Hsel r. subst r. split.
  - destruct (run_shape H n sf sc s G) as [pg [showcase [groups [-> _]]]].
    unfold head_events, selection_queries. cbn [app].
    eexists. f_equal.
    rewrite !app_comm_cons. rewrite !app_assoc. reflexivity.
  - rewrite (run_through H n sf sc s G). cbn [final fst snd].
    destruct (build_ends_selecting H n sf sc (ls_selection H s) (meshes_of s)
                (width_of s) (height_of s) (depth_of s) s) as [s_last ->].
    apply Hsel.
Qed.

(** ** C5 *)

(** C5: in a call that passes the guards, copy [i] places its control
    circle between the calls that create and colour it and the calls that
    attach it.  With the showcase set up and four copies, the circle is
    rotated by entry [i] of [(0,90,0); (0,-90,0); (0,0,0); (0,180,0)] and
    moved, in local space, to (ox * width, oy * height, -2 * depth) for entry
    (ox, oy) of [(1.0,0.7); (-1.0,0.7); (1.0,0.0); (-1.0,0.0)].  In every
    other case it is moved to (1.1 * width * (i + 1), 0, 0) and not rotated. *)
Theorem control_circle_placement (H : Host) (n : Z) (sf : float) (sc : bool)
        (s : scene H) :
  guards_pass n s ->
  exists before groups,
    trace (duplicate_and_deform H n sf sc s) =
      before ++ List.concat groups ++ [Did (Select (ls_selection H s))] /\
    Forall2 (placed n sc (width_of s) (height_of s) (depth_of s))
            (Py.range n) groups.
Proof.
  intro G.
  destruct (run_shape H n sf sc s G) as [pg [showcase [groups [Et [Hs Fg]]]]].
  exists (head_events n s ++ Made (GroupEmpty parent_group_name) pg :: showcase), groups.
  split.
  - rewrite Et, <- app_assoc. reflexivity.
  - eapply Forall2_weaken; [|exact Fg]. intros i t Hi Ht.
    eapply group_trace_placed; eassumption.
Qed.

(** ** C8 *)

(** C8: in a call that passes the guards, every copy creates, after its
    group and meshes, one control circle of radius width / 2, scales it by
    scale_factor on the three axes, constrains the group to the circle by a
    parent constraint and a scale constraint, and parents the circle and then
    the group under the node the host returned for BB_Duplicates_Grp. *)
Theorem control_circle_drives_group (H : Host) (n : Z) (sf : float) (sc : bool)
        (s : scene H) :
  guards_pass n s ->
  exists before pg after groups,
    trace (duplicate_and_deform H n sf sc s) =
      before ++ Made (GroupEmpty parent_group_name) pg :: after ++
      List.concat groups ++ [Did (Select (ls_selection H s))] /\
    free_of creates_parent_group before = true /\
    free_of creates_parent_group after = true /\
    Forall2 (controlled sf (width_of s) pg) (Py.range n) groups.
Proof.
  intro G.
  destruct (run_shape H n sf sc s G) as [pg [showcase [groups [Et [Hs Fg]]]]].
  exists (head_events n s), pg, showcase, groups.
  split; [exact Et|]. split; [|split].
  - apply free_of_forall, head_events_quiet. reflexivity.
  - apply (showcase_part_free _ _ _ _ _ _ _ Hs).
    intros c; destruct c; cbn; try congruence.
    intro E; apply String.eqb_eq in E; subst; reflexivity.
  - eapply Forall2_weaken; [|exact Fg]. intros i t _.
    apply group_trace_controlled.
Qed.

(** ** C7 *)

(** In a call that passes the guards, a camera, the showcase group or a
    window is created exactly when showcase_setup is true. *)
Lemma showcase_when_guards_pass (H : Host) (n : Z) (sf : float) (sc : bool)
        (s : scene H) :
  guards_pass n s ->
  let t := trace (duplicate_and_deform H n sf sc s) in
  existsb (event_is creates_showcase_node) t = sc /\
  (sc = true ->
   exists camera window,
     filter (event_is creates_showcase_node) t =
       [Made (Camera "renderCam") camera;
        Did (GroupEmpty "BB_Duplicate_Showcase_Grp");
        Made (Window "Showcase" "Showcase" "Short Name" 800 600) window] /\
     In (Did (ShowWindow window)) t) /\
  (sc = false -> free_of builds_showcase t = true).
Proof.
  intros G t. subst t.
  destruct (run_shape H n sf sc s G) as [pg [showcase [groups [Et [Hs Fg]]]]].
  rewrite Et.
  assert (Fh : forall p, (forall l, p (Delete l) = false) ->
                         filter (event_is p) (head_events n s) = [])
    by (intros p Hp; apply filter_none, head_events_quiet, Hp).
  assert (Fgr : forall p, (forall e, event_is inner_command e = true ->
                                     event_is p e = false) ->
                          (forall k, p (GroupEmpty (group_name k)) = false) ->
                          Forall (fun e => event_is p e = false) (List.concat groups)).
  { intros p Hin Hg.
    apply (groups_forall _ _ _ _ _ _ _ _ _ _ _ Fg); [exact Hin | intros k g; apply Hg]. }
  assert (Inner : forall e, event_is inner_command e = true ->
                            event_is creates_showcase_node e = false)
    by (intros [q|d0|c|c r]; try reflexivity; destruct c; cbn; congruence).
  assert (Inner' : forall e, event_is inner_command e = true ->
                             event_is builds_showcase e = false)
    by (intros [q|d0|c|c r]; try reflexivity; destruct c; cbn; congruence).
  assert (Ef : filter (event_is creates_showcase_node)
                 (head_events n s ++ Made (GroupEmpty parent_group_name) pg ::
                  showcase ++ List.concat groups ++ [Did (Select (ls_selection H s))]) =
               filter (event_is creates_showcase_node) showcase).
  { rewrite filter_app, Fh by reflexivity. cbn [app filter event_is command_of].
    change (creates_showcase_node (GroupEmpty parent_group_name)) with false.
    cbn iota. rewrite !filter_app.
    rewrite (filter_none _ (List.concat groups)) by (apply Fgr; [exact Inner | reflexivity]).
    cbn. apply app_nil_r. }
  split; [|split].
  - destruct (existsb _ _) eqn:E.
    + apply existsb_exists in E. destruct E as [e [He Pe]].
      assert (Hf : In e (filter (event_is creates_showcase_node) showcase))
        by (rewrite <- Ef; apply filter_In; split; assumption).
      destruct sc; [reflexivity|]. cbn [showcase_part] in Hs. subst showcase.
      destruct Hf.
    + destruct sc; [|reflexivity]. cbn [showcase_part] in Hs.
      destruct Hs as [old [stale [camera [w [panel Es]]]]].
      assert (Hin : In (Made (Camera "renderCam") camera)
                       (head_events n s ++ Made (GroupEmpty parent_group_name) pg ::
                        showcase ++ List.concat groups ++
                        [Did (Select (ls_selection H s))])).
      { apply in_or_app. right. right. apply in_or_app. left. subst showcase.
        right. right. left. reflexivity. }
      assert (Contra : existsb (event_is creates_showcase_node)
                         (head_events n s ++ Made (GroupEmpty parent_group_name) pg ::
                          showcase ++ List.concat groups ++
                          [Did (Select (ls_selection H s))]) = true)
        by (apply existsb_exists; eexists; split; [exact Hin | reflexivity]).
      congruence.
  - intros ->. cbn [showcase_part] in Hs.
    destruct Hs as [old [stale [camera [w [panel Es]]]]].
    exists camera, w. split.
    + rewrite Ef, Es. now destruct stale.
    + apply in_or_app. right. right. apply in_or_app. left. rewrite Es.
      unfold showcase_events. apply in_or_app. right. apply in_or_app. right.
      do 10 right. left. reflexivity.
  - intros ->. cbn [showcase_part] in Hs. subst showcase.
    apply free_of_forall. apply Forall_app; split.
    { apply head_events_quiet. reflexivity. }
    apply Forall_cons; [reflexivity|]. cbn [app].
    apply Forall_app; split; [|repeat constructor].
    apply Fgr; [exact Inner' | reflexivity].
Qed.

(** A call that a guard stops only asks and shows a dialog. *)
Lemma stopped_run (H : Host) (n : Z) (sf : float) (sc : bool) (s : scene H) :
  ~ guards_pass n s ->
  commands (trace (duplicate_and_deform H n sf sc s)) = [].
Proof.
  intro NG.
  assert (Cs : commands (selection_queries s) = [])
    by (apply keep_none, selection_queries_ask; reflexivity).
  assert (Cb : commands (bbox_queries (meshes_of s)) = [])
    by (apply keep_none, bbox_queries_ask; reflexivity).
  destruct (meshes_of s) as [|m ms] eqn:Em.
  - rewrite (run_without_mesh H n sf sc s Em). cbn [trace snd].
    unfold commands in *. rewrite keep_app, Cs. reflexivity.
  - assert (Hm : meshes_of s <> []) by (rewrite Em; discriminate).
    destruct (Z_lt_dec 10 n) as [Hn|Hn].
    + destruct (question_reply H s) eqn:Er.
      * exfalso. apply NG. split; [exact Hm | intros _; exact Er].
      * rewrite (run_declined H n sf sc s Hm Hn Er). cbn [trace snd].
        unfold commands in *. rewrite Em in *. rewrite !keep_app, Cs, Cb. reflexivity.
    + exfalso. apply NG. split; [exact Hm | intro; contradiction].
Qed.

Lemma guards_pass_dec (H : Host) (n : Z) (s : scene H) :
  guards_pass n s \/ ~ guards_pass n s.
Proof.
  destruct (meshes_of s) as [|m ms] eqn:Em.
  - right. intros [Hm _]. apply Hm. exact Em.
  - destruct (Z_lt_dec 10 n) as [Hn|Hn].
    + destruct (question_reply H s) eqn:Er.
      * left. split; [rewrite Em; discriminate | intros _; exact Er].
      * right. intros [_ Hr]. specialize (Hr Hn). congruence.
    + left. split; [rewrite Em; discriminate | intro; contradiction].
Qed.

Lemma no_command_free (p : command -> bool) (t : list event) :
  commands t = [] -> free_of p t = true.
Proof.
  intro Hc. apply free_of_forall.
  induction t as [|e t IH]; [constructor|].
  destruct e as [q|d0|c|c r]; try discriminate Hc;
    (constructor; [reflexivity | apply IH; exact Hc]).
Qed.

Lemma free_of_weaker (p q : command -> bool) (t : list event) :
  (forall c, p c = true -> q c = true) ->
  free_of q t = true -> existsb (event_is p) t = false.
Proof.
  intros Hpq Hq. unfold free_of in Hq. apply negb_true_iff in Hq.
  destruct (existsb (event_is p) t) eqn:E; [|reflexivity].
  apply existsb_exists in E. destruct E as [e [He Pe]].
  rewrite <- Hq. symmetry. apply existsb_exists. exists e. split; [exact He|].
  destruct e as [x|x|c|c r]; try discriminate Pe; apply Hpq, Pe.
Qed.

(** C7, as stated, fails: with showcase_setup true and no mesh selected the
    call stops at the warning and creates no camera, showcase group or
    window. *)
Lemma showcase_flag_without_mesh :
  existsb (event_is creates_showcase_node)
    (trace (duplicate_and_deform Reference.host 4 0.5 true Reference.camera_scene))
  = false /\
  trace (duplicate_and_deform Reference.host 4 0.5 true Reference.camera_scene) =
    [Asked LsSelection; Asked LsSelectedShapes; Asked (NodeType "perspShape");
     Showed warning_dialog].
Proof. split; vm_compute; reflexivity. Qed.

(** C7, amended: a camera, the showcase group or a window is created
    exactly when showcase_setup is true and the call passes both guards.
    They are then, in order, the camera renderCam, the group
    BB_Duplicate_Showcase_Grp and the window Showcase, which is shown.  When
    showcase_setup is false, or when a guard stops the call, the trace holds
    no showcase command at all. *)
Theorem showcase_only_on_request (H : Host) (n : Z) (sf : float) (sc : bool)
        (s : scene H) :
  let t := trace (duplicate_and_deform H n sf sc s) in
  (existsb (event_is creates_showcase_node) t = true <->
   sc = true /\ guards_pass n s) /\
  (sc = true -> guards_pass n s ->
   exists camera window,
     filter (event_is creates_showcase_node) t =
       [Made (Camera "renderCam") camera;
        Did (GroupEmpty "BB_Duplicate_Showcase_Grp");
        Made (Window "Showcase" "Showcase" "Short Name" 800 600) window] /\
     In (Did (ShowWindow window)) t) /\
  (sc = false \/ ~ guards_pass n s -> free_of builds_showcase t = true).
Proof.
  intro t. subst t.
  assert (Sub : forall c, creates_showcase_node c = true -> builds_showcase c = true)
    by (intros c; destruct c; cbn; congruence).
  assert (Off : sc = false \/ ~ guards_pass n s ->
                free_of builds_showcase (trace (duplicate_and_deform H n sf sc s)) = true).
  { intros [Hsc|NG].
    - destruct (guards_pass_dec H n s) as [G|NG].
      + apply (showcase_when_guards_pass H n sf sc s G), Hsc.
      + apply no_command_free, stopped_run, NG.
    - apply no_command_free, stopped_run, NG. }
  split; [|split; [|exact Off]].
  - split.
    + intro E. destruct (guards_pass_dec H n s) as [G|NG].
      * split; [|exact G].
        destruct (showcase_when_guards_pass H n sf sc s G) as [Eq _]. congruence.
      * rewrite (free_of_weaker _ _ _ Sub (Off (or_intror NG))) in E. discriminate.
    + intros [-> G]. apply (showcase_when_guards_pass H n sf true s G).
  - intros Hsc G. apply (showcase_when_guards_pass H n sf sc s G), Hsc.
Qed.

(** ** C6 *)

(** C6, as stated, fails: with the showcase set up, the camera and the
    window are built before the first copy, not after the last.  On the
    sphere scene, one copy, showcase on, a loop creation follows a showcase
    command in the trace. *)
Lemma showcase_not_after_copies :
  guards_pass (H := Reference.host) 1 (Reference.sphere_scene Yes) /\
  showcase_after_loop
    (trace (duplicate_and_deform Reference.host 1 0.5 true
                                 (Reference.sphere_scene Yes))) = false.
Proof.
  split.
  - split; [vm_compute; discriminate | intros _; reflexivity].
  - vm_compute. reflexivity.
Qed.

(** C6, amended: a call that passes the guards reads and filters the
    selection, asks the bounding boxes, asks for confirmation when more than
    ten copies are wanted, tests for the parent group and cleans up when it
    exists, creates the parent group, then builds the showcase when asked to,
    and only then runs the loop over the copies; it ends by selecting.  The
    showcase block creates no loop node and the copies issue no showcase
    command, so no showcase command follows a node the loop creates. *)
Theorem showcase_built_before_copies (H : Host) (n : Z) (sf : float) (sc : bool)
        (s : scene H) :
  guards_pass n s ->
  let t := trace (duplicate_and_deform H n sf sc s) in
  exists pg showcase groups,
    t = selection_queries s ++ bbox_queries (meshes_of s) ++
        (if n >? 10 then [Showed confirmation_dialog] else []) ++
        Asked (ObjExists parent_group_name) ::
        (if obj_exists H s parent_group_name then cleanup_events s else []) ++
        Made (GroupEmpty parent_group_name) pg ::
        showcase ++ List.concat groups ++ [Did (Select (ls_selection H s))] /\
    showcase_part sc (ls_selection H s) pg (height_of s) (depth_of s) showcase /\
    Forall2 (copy_trace (meshes_of s)) (Py.range n) groups /\
    free_of creates_loop_node showcase = true /\
    free_of builds_showcase (List.concat groups) = true /\
    showcase_before_loop t = true.
Proof.
  intros G t. subst t.
  destruct (run_shape H n sf sc s G) as [pg [showcase [groups [Et [Hs Fg]]]]].
  exists pg, showcase, groups.
  assert (Fs : free_of creates_loop_node showcase = true).
  { apply (showcase_part_free _ _ _ _ _ _ _ Hs).
    intros c; destruct c; cbn; try congruence.
    intro E; apply String.eqb_eq in E; subst; reflexivity. }
  assert (Fc : free_of builds_showcase (List.concat groups) = true).
  { apply (groups_free _ _ _ _ _ _ _ _ _ _ _ Fg); [|reflexivity].
    intros [q|d0|c|c r]; try reflexivity; destruct c; cbn; congruence. }
  split; [|split; [exact Hs|split; [|split; [exact Fs|split; [exact Fc|]]]]].
  - rewrite Et. unfold head_events. rewrite <- !app_assoc. reflexivity.
  - eapply Forall2_weaken; [|exact Fg]. intros i u _. apply group_trace_copy.
  - rewrite Et.
    change (head_events n s ++ Made (GroupEmpty parent_group_name) pg ::
            showcase ++ List.concat groups ++ [Did (Select (ls_selection H s))])
      with (head_events n s ++ [Made (GroupEmpty parent_group_name) pg] ++
            showcase ++ List.concat groups ++ [Did (Select (ls_selection H s))]).
    rewrite !app_assoc. rewrite <- (app_assoc _ (List.concat groups)).
    apply showcase_before_loop_app.
    + rewrite !free_of_app, Fs.
      rewrite (free_of_forall _ _ (head_events_quiet H _ n s (fun _ => eq_refl))).
      reflexivity.
    + rewrite free_of_app, Fc. reflexivity.
Qed.

(** ** The theorems at concrete calls on the reference host *)

Lemma copies_created_witness :
  guards_pass (H := Reference.host) 2 (Reference.pair_scene Yes) /\
  group_requests
    (trace (duplicate_and_deform Reference.host 2 0.5 false (Reference.pair_scene Yes))) =
  ["BB_Duplicates_Grp"; "BB_Duplicate_Mesh_01"; "BB_Duplicate_Mesh_02"]%string.
Proof.
  assert (G : guards_pass (H := Reference.host) 2 (Reference.pair_scene Yes))
    by (split; [vm_compute; discriminate | intros _; reflexivity]).
  split; [exact G|].
  destruct (copies_created Reference.host 2 0.5 false (Reference.pair_scene Yes) G)
    as (before & groups & _ & _ & _ & _ & E).
  exact E.
Defined.

Lemma bounding_box_extents_witness :
  let meshes := ["pSphereShape1"; "pCubeShape1"]%string in
  let s := Reference.pair_scene Yes in
  let boxes := map (world_bbox Reference.host s) meshes in
  let r := calculate_bounding_box Reference.host meshes s in
  meshes <> [] /\
  (forall mesh, In mesh meshes -> numeric_box (world_bbox Reference.host s mesh)) /\
  exists x0 y0 z0 x1 y1 z1,
    is_minimum x0 (map bbox0 boxes) /\
    is_minimum y0 (map bbox1 boxes) /\
    is_minimum z0 (map bbox2 boxes) /\
    is_maximum x1 (map bbox3 boxes) /\
    is_maximum y1 (map bbox4 boxes) /\
    is_maximum z1 (map bbox5 boxes) /\
    value r = (x1 - x0, y1 - y0, z1 - z0)%float /\
    final r = s /\
    trace r = map (fun mesh => Asked (ExactWorldBoundingBox mesh)) meshes.
Proof.
  intros meshes s boxes r.
  assert (Hne : meshes <> []) by discriminate.
  assert (Hnum : forall mesh, In mesh meshes ->
                              numeric_box (world_bbox Reference.host s mesh))
    by (intros mesh [<-|[<-|[]]]; repeat split).
  split; [exact Hne|]. split; [exact Hnum|].
  exact (bounding_box_extents Reference.host meshes s Hne Hnum).
Defined.

Lemma no_mesh_selected_only_warns_witness :
  let s := Reference.camera_scene in
  let r := duplicate_and_deform Reference.host 4 0.5 true s in
  (forall node, In node (ls_selected_shapes Reference.host s) ->
     node_type Reference.host s node <> "mesh"%string /\
     node_type Reference.host s node <> "nurbsSurface"%string) /\
  trace r = selection_queries (H := Reference.host) s ++ [Showed warning_dialog] /\
  dialogs (trace r) = [warning_dialog] /\
  commands (trace r) = [] /\
  final r = s.
Proof.
  intros s r.
  assert (Hsel : forall node, In node (ls_selected_shapes Reference.host s) ->
                   node_type Reference.host s node <> "mesh"%string /\
                   node_type Reference.host s node <> "nurbsSurface"%string)
    by (intros node [<-|[]]; split; discriminate).
  split; [exact Hsel|].
  exact (no_mesh_selected_only_warns Reference.host 4 0.5 true s Hsel).
Defined.

Lemma confirmation_guard_witness :
  let s := Reference.sphere_scene No in
  let r := duplicate_and_deform Reference.host 11 0.5 false s in
  meshes_of (H := Reference.host) s <> [] /\
  dialogs (trace r) = [confirmation_dialog] /\
  commands (trace r) = [] /\
  final r = s.
Proof.
  intros s r.
  assert (Hm : meshes_of (H := Reference.host) s <> [])
    by (vm_compute; discriminate).
  split; [exact Hm|].
  destruct (confirmation_guard Reference.host 11 0.5 false s Hm) as (Hno & _).
  apply Hno; [lia | reflexivity].
Defined.

Lemma control_circle_placement_witness :
  let s := Reference.sphere_scene Yes in
  guards_pass (H := Reference.host) 4 s /\
  exists before groups,
    trace (duplicate_and_deform Reference.host 4 0.5 true s) =
      before ++ List.concat groups ++ [Did (Select (ls_selection Reference.host s))] /\
    Forall2 (placed 4 true (width_of (H := Reference.host) s)
                    (height_of (H := Reference.host) s)
                    (depth_of (H := Reference.host) s))
            (Py.range 4) groups.
Proof.
  intro s.
  assert (G : guards_pass (H := Reference.host) 4 s)
    by (split; [vm_compute; discriminate | intros _; reflexivity]).
  split; [exact G|].
  exact (control_circle_placement Reference.host 4 0.5 true s G).
Defined.

Lemma showcase_built_before_copies_witness :
  let s := Reference.sphere_scene Yes in
  guards_pass (H := Reference.host) 2 s /\
  showcase_before_loop (trace (duplicate_and_deform Reference.host 2 0.5 true s)) = true.
Proof.
  intro s.
  assert (G : guards_pass (H := Reference.host) 2 s)
    by (split; [vm_compute; discriminate | intros _; reflexivity]).
  split; [exact G|].
  destruct (showcase_built_before_copies Reference.host 2 0.5 true s G)
    as (pg & showcase & groups & _ & _ & _ & _ & _ & E).
  exact E.
Defined.

Lemma control_circle_drives_group_witness :
  let s := Reference.pair_scene Yes in
  guards_pass (H := Reference.host) 3 s /\
  exists before pg after groups,
    trace (duplicate_and_deform Reference.host 3 2 false s) =
      before ++ Made (GroupEmpty parent_group_name) pg :: after ++
      List.concat groups ++ [Did (Select (ls_selection Reference.host s))] /\
    free_of creates_parent_group before = true /\
    free_of creates_parent_group after = true /\
    Forall2 (controlled 2 (width_of (H := Reference.host) s) pg) (Py.range 3) groups.
Proof.
  intro s.
  assert (G : guards_pass (H := Reference.host) 3 s)
    by (split; [vm_compute; discriminate | intros _; reflexivity]).
  split; [exact G|].
  exact (control_circle_drives_group Reference.host 3 2 false s G).
Defined.

Lemma selection_restored_witness :
  let s := Reference.pair_scene Yes in
  let r := duplicate_and_deform Reference.host 2 0.5 true s in
  guards_pass (H := Reference.host) 2 s /\
  select_selects Reference.host /\
  ls_selection Reference.host (final r) = ["pSphere1"; "pCube1"]%string.
Proof.
  intros s r.
  assert (G : guards_pass (H := Reference.host) 2 s)
    by (split; [vm_compute; discriminate | intros _; reflexivity]).
  assert (L : select_selects Reference.host) by (intros l s0; reflexivity).
  split; [exact G|]. split; [exact L|].
  destruct (selection_restored Reference.host 2 0.5 true s G L) as (_ & E).
  exact E.
Defined.

(** ** Runs on the reference host *)

Example format_02d_examples :
  Py.format_02d 1 = "01"%string /\ Py.format_02d 10 = "10"%string /\
  Py.format_02d 123 = "123"%string.
Proof. repeat split. Qed.

Example split_examples :
  mesh_name_of "ns:sub:pSphereShape1" = "pSphereShape1"%string /\
  mesh_name_of "pSphereShape1" = "pSphereShape1"%string /\
  Py.split ":" "a:" = ["a"%string; EmptyString].
Proof. repeat split. Qed.

Example pair_bounding_box :
  value (calculate_bounding_box Reference.host
           ["pSphereShape1"%string; "pCubeShape1"%string]
           (Reference.pair_scene Yes)) = (5, 6, 4)%float.
Proof. vm_compute. reflexivity. Qed.

Example sphere_one_copy :
  trace (duplicate_and_deform Reference.host 1 0.5 false (Reference.sphere_scene Yes)) =
  [Asked LsSelection; Asked LsSelectedShapes; Asked (NodeType "pSphereShape1");
   Asked (ExactWorldBoundingBox "pSphereShape1");
   Asked (ObjExists "BB_Duplicates_Grp");
   Made (GroupEmpty "BB_Duplicates_Grp") "BB_Duplicates_Grp";
   Made (GroupEmpty "BB_Duplicate_Mesh_01") "BB_Duplicate_Mesh_01";
   Made (Duplicate "pSphereShape1") "copy0";
   Made (Rename "copy0" "dup_pSphereShape1_01") "dup_pSphereShape1_01";
   Made (BlendShape "pSphereShape1" "dup_pSphereShape1_01"
                    "BB_Duplicate_Mesh_01_BS" true) "BB_Duplicate_Mesh_01_BS";
   Did (SetAttr "BB_Duplicate_Mesh_01_BS.pSphereShape1" [Py.Int 1]);
   Did (Parent "dup_pSphereShape1_01" "BB_Duplicate_Mesh_01");
   Made (Circle "BB_Duplicate_Mesh_01_ctrl" (0, 1, 0) 1) "BB_Duplicate_Mesh_01_ctrl";
   Did (Scale 0.5 0.5 0.5 "BB_Duplicate_Mesh_01_ctrl");
   Did (SetAttr "BB_Duplicate_Mesh_01_ctrl.overrideEnabled" [Py.Int 1]);
   Did (SetAttr "BB_Duplicate_Mesh_01_ctrl.overrideRGBColors" [Py.Int 1]);
   Did (SetAttr "BB_Duplicate_Mesh_01_ctrl.overrideColorRGB"
                [Py.Int 1; Py.Int 1; Py.Int 0]);
   Did (Move (Py.Float (1.1 * 2 * 1)) (Py.Int 0) (Py.Int 0)
             "BB_Duplicate_Mesh_01_ctrl" true);
   Did (ParentConstraint "BB_Duplicate_Mesh_01_ctrl" "BB_Duplicate_Mesh_01");
   Did (ScaleConstraint "BB_Duplicate_Mesh_01_ctrl" "BB_Duplicate_Mesh_01");
   Did (Parent "BB_Duplicate_Mesh_01_ctrl" "BB_Duplicates_Grp");
   Did (Parent "BB_Duplicate_Mesh_01" "BB_Duplicates_Grp");
   Did (Select ["pSphere1"%string])].
Proof. vm_compute. reflexivity. Qed.

(** On the reference host a second call replaces what the first one built. *)
Example second_call_replaces_first :
  let once := final (duplicate_and_deform Reference.host 3 0.5 true
                                          (Reference.sphere_scene Yes)) in
  let twice := final (duplicate_and_deform Reference.host 1 0.5 false once) in
  Reference.names_of_kind "transform" (Reference.nodes twice) =
    ["pSphere1"; "BB_Duplicates_Grp"; "BB_Duplicate_Mesh_01";
     "dup_pSphereShape1_01"; "BB_Duplicate_Mesh_01_ctrl"]%string /\
  Reference.names_of_kind "blendShape" (Reference.nodes twice) =
    ["BB_Duplicate_Mesh_01_BS"%string].
Proof. vm_compute. split; reflexivity. Qed.

(** * Further properties *)

Section Further.

Variable H : Host.

(** The groups a call that passes the guards requests, and the shape of
    its trace. *)
Lemma copies_requested (n : Z) (sf : float) (sc : bool) (s : scene H) :
  guards_pass n s ->
  group_requests (trace (duplicate_and_deform H n sf sc s)) =
    parent_group_name :: (if sc then [showcase_group_name] else []) ++
    map (fun i => group_name (i + 1)) (Py.range n).
Proof.
  intro G.
  destruct (run_shape H n sf sc s G) as [pg [showcase [groups [Et [Hs Fg]]]]].
  rewrite Et. unfold group_requests in *. rewrite keep_app.
  fold (group_requests (head_events n s)). rewrite head_events_requests.
  change (keep ?f (?e :: ?l)) with (keep f [e] ++ keep f l).
  rewrite !keep_app.
  fold (group_requests showcase). rewrite (showcase_part_requests _ _ _ _ _ _ Hs).
  fold (group_requests (List.concat groups)).
  rewrite (groups_requests _ _ _ _ _ _ _ _ _ _ Fg).
  cbn. now rewrite app_nil_r.
Qed.

End Further.



(** ** Mesh names and namespaces *)

Section Names.

Lemma split_nonempty (sep : ascii) (s : string) : Py.split sep s <> [].
Proof.
  induction s as [|c s IH]; cbn [Py.split]; [discriminate|].
  destruct (Ascii.eqb c sep); [discriminate|].
  destruct (Py.split sep s); discriminate.
Qed.

(** Splitting at a separator splits the two sides apart. *)
Lemma split_app (sep : ascii) (a b : string) :
  Py.split sep (a ++ String sep b) = Py.split sep a ++ Py.split sep b.
Proof.
  induction a as [|c a IH]; cbn [String.append Py.split].
  - rewrite Ascii.eqb_refl. reflexivity.
  - destruct (Ascii.eqb c sep); [now rewrite IH|].
    rewrite IH. destruct (Py.split sep a) as [|w ws] eqn:E.
    + exfalso. exact (split_nonempty sep a E).
    + reflexivity.
Qed.

Lemma split_without (sep : ascii) (s : string) :
  ~ occurs sep s -> Py.split sep s = [s].
Proof.
  unfold occurs. induction s as [|c s IH]; cbn [Py.split list_ascii_of_string];
    [reflexivity|]. intro Hn.
  destruct (Ascii.eqb_spec c sep) as [->|Hc].
  - exfalso. apply Hn. left. reflexivity.
  - rewrite IH; [reflexivity|]. intro Hin. apply Hn. right. exact Hin.
Qed.

Lemma split_pieces (sep : ascii) (s : string) :
  Forall (fun w => ~ occurs sep w) (Py.split sep s).
Proof.
  unfold occurs. induction s as [|c s IH]; cbn [Py.split].
  - constructor; [intros []|constructor].
  - destruct (Ascii.eqb_spec c sep) as [->|Hc].
    + constructor; [intros []|exact IH].
    + destruct (Py.split sep s) as [|w ws]; [repeat constructor; cbn; intuition|].
      inversion IH as [|? ? Hw Hws]; subst. constructor; [|exact Hws].
      cbn [list_ascii_of_string]. intros [E|Hin]; [congruence | exact (Hw Hin)].
Qed.

Lemma last_app_nonempty A (xs ys : list A) (d : A) :
  ys <> [] -> last (xs ++ ys) d = last ys d.
Proof.
  intro Hy. induction xs as [|x xs IH]; [reflexivity|].
  cbn [app last]. destruct (xs ++ ys) eqn:E; [|exact IH].
  apply app_eq_nil in E. destruct E as [_ E]. contradiction.
Qed.

Lemma mesh_name_of_prefixed (ns m : string) :
  mesh_name_of (ns ++ String ":" m) = mesh_name_of m.
Proof.
  unfold mesh_name_of. rewrite split_app.
  apply last_app_nonempty, split_nonempty.
Qed.

Lemma mesh_name_of_plain (m : string) : ~ occurs ":" m -> mesh_name_of m = m.
Proof. intro Hn. unfold mesh_name_of. now rewrite split_without. Qed.

Lemma mesh_name_of_clean (m : string) : ~ occurs ":" (mesh_name_of m).
Proof.
  unfold mesh_name_of.
  assert (F := split_pieces ":" m). assert (N := split_nonempty ":" m).
  induction (Py.split ":" m) as [|w ws IH]; [congruence|].
  inversion F as [|? ? Hw Hws]; subst. destruct ws as [|w' ws']; [exact Hw|].
  apply IH; [exact Hws | discriminate].
Qed.

Lemma occurs_app (c : ascii) (a b : string) :
  occurs c (a ++ b) <-> occurs c a \/ occurs c b.
Proof.
  unfold occurs. induction a as [|x a IH]; cbn [String.append list_ascii_of_string In].
  - tauto.
  - rewrite IH. tauto.
Qed.

(** Every string is a colon-free tail, alone or after a prefix that ends
    in a colon. *)
Lemma last_colon (m : string) :
  ~ occurs ":" m \/
  exists ns tail, m = (ns ++ String ":" tail)%string /\ ~ occurs ":" tail.
Proof.
  induction m as [|c m IH].
  - left. intros [].
  - destruct IH as [Hn | [ns [tail [-> Ht]]]].
    + destruct (Ascii.eqb_spec c ":") as [->|Hc].
      * right. exists EmptyString, m. split; [reflexivity | exact Hn].
      * left. unfold occurs. cbn [list_ascii_of_string]. intros [E|Hin];
          [congruence | exact (Hn Hin)].
    + right. exists (String c ns), tail. split; [reflexivity | exact Ht].
Qed.

Lemma length_append (a b : string) :
  String.length (a ++ b) = (String.length a + String.length b)%nat.
Proof. induction a as [|x a IH]; cbn; [reflexivity | now rewrite IH]. Qed.

Lemma append_assoc (a b c : string) :
  ((a ++ b) ++ c)%string = (a ++ (b ++ c))%string.
Proof. induction a as [|x a IH]; cbn; [reflexivity | now rewrite IH]. Qed.

Lemma append_cancel_r (a b c : string) :
  (a ++ c)%string = (b ++ c)%string -> a = b.
Proof.
  revert b. induction a as [|x a IH]; intros [|y b] E; cbn [String.append] in E.
  - reflexivity.
  - exfalso. apply (f_equal String.length) in E.
    cbn [String.length] in E. rewrite length_append in E. lia.
  - exfalso. apply (f_equal String.length) in E.
    cbn [String.length] in E. rewrite length_append in E. lia.
  - injection E as -> E. f_equal. exact (IH b E).
Qed.

End Names.

(** X1: the mesh name used for the duplicate and for the blend-shape
    weight is what follows the last colon of the shape's name: it holds no
    colon, the shape's name is that name alone when it has no colon, and is a
    prefix ending in a colon followed by that name otherwise. *)
Theorem mesh_name_after_last_colon (mesh : string) :
  ~ occurs ":" (mesh_name_of mesh) /\
  ((~ occurs ":" mesh /\ mesh_name_of mesh = mesh) \/
   (exists ns, mesh = (ns ++ String ":" (mesh_name_of mesh))%string)).
Proof.
  split; [apply mesh_name_of_clean|].
  destruct (last_colon mesh) as [Hn | [ns [tail [-> Ht]]]].
  - left. split; [exact Hn | now apply mesh_name_of_plain].
  - right. exists ns. rewrite mesh_name_of_prefixed.
    now rewrite (mesh_name_of_plain tail Ht).
Qed.

(** X2: in one copy, two shapes are given the same duplicate name exactly
    when their names agree after the last colon; in particular shapes that
    differ only by namespace are given the same name, and the same weight
    attribute on a blend shape. *)
Theorem duplicate_names_clash_on_namespaces (m1 m2 : string) (k : Z) :
  (duplicate_name m1 k = duplicate_name m2 k <-> mesh_name_of m1 = mesh_name_of m2) /\
  (forall ns1 ns2 name bs,
     duplicate_name (ns1 ++ String ":" name) k = duplicate_name (ns2 ++ String ":" name) k /\
     (bs ++ "." ++ mesh_name_of (ns1 ++ String ":" name))%string =
     (bs ++ "." ++ mesh_name_of (ns2 ++ String ":" name))%string).
Proof.
  split.
  - unfold duplicate_name. split.
    + intro E. cbn [String.append] in E. injection E as E.
      exact (append_cancel_r _ _ _ E).
    + intros ->. reflexivity.
  - intros ns1 ns2 name bs. unfold duplicate_name.
    rewrite !mesh_name_of_prefixed. split; reflexivity.
Qed.

(** ** Copy numbers and group names *)

Section Numbering.

Import Decimal.

Lemma string_of_uint_inj (d d' : uint) :
  NilEmpty.string_of_uint d = NilEmpty.string_of_uint d' -> d = d'.
Proof.
  intro E. apply (f_equal NilEmpty.uint_of_string) in E.
  rewrite !NilEmpty.usu in E. now injection E.
Qed.

Lemma digits_inj (n m : Z) : digits n = digits m -> Z.abs_N n = Z.abs_N m.
Proof.
  intro E. apply string_of_uint_inj in E.
  now apply DecimalN.Unsigned.to_uint_inj.
Qed.

(** The digits of a number start with a digit, not with a sign. *)
Lemma digits_head (n : Z) :
  exists c rest, digits n = String c rest /\ c <> "-"%char.
Proof.
  unfold digits. destruct (N.to_uint (Z.abs_N n)) eqn:E;
    try (eexists _, _; split; [reflexivity | discriminate]).
  exfalso. destruct (Z.abs_N n) as [|p]; [discriminate|].
  exact (DecimalPos.Unsigned.to_uint_nonnil p E).
Qed.

Lemma to_uint_normal (n : N) : unorm (N.to_uint n) = N.to_uint n.
Proof. rewrite <- DecimalN.Unsigned.to_of, DecimalN.Unsigned.of_to. reflexivity. Qed.

(** No number is printed with a leading zero before its digits. *)
Lemma digits_no_leading_zero (n m : Z) : String "0" (digits n) <> digits m.
Proof.
  unfold digits. intro E.
  change (String "0" (NilEmpty.string_of_uint (N.to_uint (Z.abs_N n))))
    with (NilEmpty.string_of_uint (D0 (N.to_uint (Z.abs_N n)))) in E.
  apply string_of_uint_inj in E.
  assert (Nm := to_uint_normal (Z.abs_N m)). rewrite <- E in Nm.
  change (unorm (D0 (N.to_uint (Z.abs_N n)))) with (unorm (N.to_uint (Z.abs_N n))) in Nm.
  rewrite to_uint_normal in Nm.
  apply (f_equal NilEmpty.string_of_uint) in Nm.
  apply (f_equal String.length) in Nm. cbn in Nm. lia.
Qed.

Lemma format_02d_inj (n m : Z) : Py.format_02d n = Py.format_02d m -> n = m.
Proof.
  unfold Py.format_02d. fold (digits n). fold (digits m).
  destruct (digits_head n) as [cn [rn [En Hn]]].
  destruct (digits_head m) as [cm [rm [Em Hm]]].
  destruct (Z.ltb_spec n 0) as [Ln|Ln], (Z.ltb_spec m 0) as [Lm|Lm].
  - intro E. injection E as E. apply digits_inj in E. lia.
  - destruct (String.length (digits m) <? 2)%nat; intro E.
    + discriminate E.
    + rewrite Em in E. injection E as E _. congruence.
  - destruct (String.length (digits n) <? 2)%nat; intro E.
    + discriminate E.
    + rewrite En in E. injection E as E _. congruence.
  - destruct (String.length (digits n) <? 2)%nat,
             (String.length (digits m) <? 2)%nat; intro E.
    + injection E as E. apply digits_inj in E. lia.
    + exfalso. exact (digits_no_leading_zero n m E).
    + exfalso. symmetry in E. exact (digits_no_leading_zero m n E).
    + apply digits_inj in E. lia.
Qed.

Lemma group_name_inj (j k : Z) : group_name j = group_name k -> j = k.
Proof.
  unfold group_name. cbn [String.append]. intro E.
  injection E as E. exact (format_02d_inj j k E).
Qed.

Lemma group_name_not_fixed (k : Z) :
  group_name k <> parent_group_name /\ group_name k <> showcase_group_name.
Proof. split; intro E; cbn in E; discriminate E. Qed.

Lemma range_NoDup (n : Z) : NoDup (Py.range n).
Proof.
  unfold Py.range. apply Injective_map_NoDup; [|apply seq_NoDup].
  intros a b. apply Nat2Z.inj.
Qed.

End Numbering.

(** X3: the groups one call asks the host to create have pairwise
    distinct names, whatever the number of copies: the parent group, the
    showcase group and BB_Duplicate_Mesh_01, _02, ... (past 99 the numbers
    grow to three digits and still differ). *)
Theorem group_requests_distinct (H : Host) (n : Z) (sf : float) (sc : bool)
        (s : scene H) :
  guards_pass n s ->
  NoDup (group_requests (trace (duplicate_and_deform H n sf sc s))) /\
  (forall j k, group_name j = group_name k -> j = k).
Proof.
  intro G. split; [|exact group_name_inj].
  rewrite (copies_requested H n sf sc s G).
  assert (Nc : NoDup (map (fun i => group_name (i + 1)) (Py.range n))).
  { apply Injective_map_NoDup; [|apply range_NoDup].
    intros a b E. apply group_name_inj in E. lia. }
  assert (Out : forall x, In x (map (fun i => group_name (i + 1)) (Py.range n)) ->
                          x <> parent_group_name /\ x <> showcase_group_name).
  { intros x Hx. apply in_map_iff in Hx. destruct Hx as [i [<- _]].
    apply group_name_not_fixed. }
  constructor.
  - intro Hin. apply in_app_or in Hin. destruct Hin as [Hin|Hin].
    + destruct sc; [|destruct Hin]. destruct Hin as [E|[]]. discriminate E.
    + apply Out in Hin. tauto.
  - destruct sc; [|exact Nc]. cbn [app]. constructor; [|exact Nc].
    intro Hin. apply Out in Hin. tauto.
Qed.

(** ** Bounding boxes of arbitrary lists *)

Section AnyBoxes.

Local Open Scope float_scope.

Lemma SFeqb_refl a : a <> S754_nan -> SFeqb a a = true.
Proof.
  unfold SFeqb. destruct a as [[]|[]| |[] m e]; simpl; try congruence; intros _;
    rewrite Z.compare_refl;
    change (Pos.compare_cont Eq m m) with (Pos.compare m m);
    rewrite Pos.compare_refl; reflexivity.
Qed.

Lemma nan_spec x : is_nan x = true -> Prim2SF x = S754_nan.
Proof.
  unfold is_nan. rewrite eqb_spec. intro E.
  destruct (Prim2SF x) eqn:P; try reflexivity;
    rewrite SFeqb_refl in E by discriminate; discriminate E.
Qed.

(** Nothing is below or above a NaN. *)
Lemma nan_unordered x a :
  is_nan x = true -> (x <? a) = false /\ (a <? x) = false.
Proof.
  intro E. apply nan_spec in E. rewrite !ltb_spec, E. split.
  - reflexivity.
  - unfold SFltb. now destruct (Prim2SF a).
Qed.

(** The running minimum and maximum skip the entries that are NaN. *)
Lemma fold_min_numbers (xs : list float) (a : float) :
  fold_left Py.min xs a = fold_left Py.min (numbers xs) a.
Proof.
  revert a. induction xs as [|x xs IH]; intro a; [reflexivity|].
  cbn [fold_left numbers filter]. fold (numbers xs).
  destruct (is_nan x) eqn:E; cbn [negb].
  - unfold Py.min at 2. destruct (nan_unordered x a E) as [-> _]. apply IH.
  - cbn [fold_left]. apply IH.
Qed.

Lemma fold_max_numbers (xs : list float) (a : float) :
  fold_left Py.max xs a = fold_left Py.max (numbers xs) a.
Proof.
  revert a. induction xs as [|x xs IH]; intro a; [reflexivity|].
  cbn [fold_left numbers filter]. fold (numbers xs).
  destruct (is_nan x) eqn:E; cbn [negb].
  - unfold Py.max at 2. destruct (nan_unordered x a E) as [_ ->]. apply IH.
  - cbn [fold_left]. apply IH.
Qed.

Lemma numbers_are_numbers (xs : list float) : Forall number (numbers xs).
Proof.
  apply Forall_forall. intros x Hx. apply filter_In in Hx.
  destruct Hx as [_ Hx]. now apply negb_true_iff in Hx.
Qed.

Lemma fold_min_least (xs : list float) :
  least_or infinity xs (fold_left Py.min xs infinity).
Proof.
  rewrite fold_min_numbers. assert (F := numbers_are_numbers xs).
  unfold least_or. destruct (numbers xs) as [|x ys].
  - left. split; reflexivity.
  - right. split; [discriminate|]. now apply fold_min_infinity.
Qed.

Lemma fold_max_greatest (xs : list float) :
  greatest_or neg_infinity xs (fold_left Py.max xs neg_infinity).
Proof.
  rewrite fold_max_numbers. assert (F := numbers_are_numbers xs).
  unfold greatest_or. destruct (numbers xs) as [|x ys].
  - left. split; reflexivity.
  - right. split; [discriminate|]. now apply fold_max_neg_infinity.
Qed.

End AnyBoxes.

(** X4: for any list of meshes and any boxes the host returns,
    calculate_bounding_box only asks for the boxes and returns
    (x1 - x0, y1 - y0, z1 - z0), where on each axis the lower bound is the least
    of the values that are numbers and the upper bound the greatest: a NaN
    coordinate is skipped.  On an axis where no mesh gives a number the
    bounds stay at +inf and -inf, so the extent is -inf; this is the result
    for the empty list. *)
Theorem bounding_box_of_any_list (H : Host) (meshes : list string) (s : scene H) :
  let boxes := map (world_bbox H s) meshes in
  let r := calculate_bounding_box H meshes s in
  (exists x0 y0 z0 x1 y1 z1,
     least_or infinity (map bbox0 boxes) x0 /\
     least_or infinity (map bbox1 boxes) y0 /\
     least_or infinity (map bbox2 boxes) z0 /\
     greatest_or neg_infinity (map bbox3 boxes) x1 /\
     greatest_or neg_infinity (map bbox4 boxes) y1 /\
     greatest_or neg_infinity (map bbox5 boxes) z1 /\
     value r = (x1 - x0, y1 - y0, z1 - z0)%float) /\
  final r = s /\
  commands (trace r) = [] /\
  (meshes = [] -> value r = (neg_infinity, neg_infinity, neg_infinity)).
Proof.
  intros boxes r. subst r. rewrite calculate_bounding_box_run.
  cbn [value final trace fst snd]. split; [|split; [reflexivity|split]].
  - unfold bounding_box_of, extents. fold boxes. rewrite fold_extrema.
    cbn [x_min y_min z_min x_max y_max z_max extrema_init].
    eexists _, _, _, _, _, _.
    split; [apply fold_min_least|]. split; [apply fold_min_least|].
    split; [apply fold_min_least|]. split; [apply fold_max_greatest|].
    split; [apply fold_max_greatest|]. split; [apply fold_max_greatest|].
    reflexivity.
  - apply keep_none, bbox_queries_ask. reflexivity.
  - intros ->. reflexivity.
Qed.

(** ** Calls for no copy, table bounds and counts *)

Section Counting.

Variable H : Host.

Lemma count_of_app (p : command -> bool) (t u : list event) :
  count_of p (t ++ u) = (count_of p t + count_of p u)%nat.
Proof. unfold count_of. now rewrite filter_app, length_app. Qed.

Lemma count_of_none (p : command -> bool) (t : list event) :
  Forall (fun e => event_is p e = false) t -> count_of p t = 0%nat.
Proof. intro F. unfold count_of. now rewrite filter_none. Qed.

Lemma count_of_blocks (p : command -> bool) (a : nat) k g meshes blocks :
  (forall mesh copy dup bs, count_of p (mesh_events k g mesh copy dup bs) = a) ->
  Forall2 (mesh_block k g) meshes blocks ->
  count_of p (List.concat blocks) = (List.length meshes * a)%nat.
Proof.
  intros Ha. induction 1 as [|mesh t meshes blocks [copy [dup [bs ->]]] _ IH];
    [reflexivity|].
  cbn [List.concat List.length]. rewrite count_of_app, IH, Ha. lia.
Qed.

Lemma count_of_groups (p : command -> bool) (a b : nat)
      n sf sc meshes pg w h d ixs groups :
  (forall k g mesh copy dup bs, count_of p (mesh_events k g mesh copy dup bs) = a) ->
  (forall g circle placement,
      Forall (fun e => event_is p e = false) placement ->
      count_of p (control_events sf w pg g circle placement) = b) ->
  (forall e, event_is moves_or_rotates e = true -> event_is p e = false) ->
  (forall k g, event_is p (Made (GroupEmpty (group_name k)) g) = false) ->
  Forall2 (group_trace n sf sc meshes pg w h d) ixs groups ->
  count_of p (List.concat groups) =
    (List.length ixs * (List.length meshes * a + b))%nat.
Proof.
  intros Ha Hb Hm Hg.
  induction 1 as [|i t ixs groups [g [blocks [circle [F ->]]]] _ IH]; [reflexivity|].
  cbn [List.concat List.length]. rewrite count_of_app, IH.
  change (count_of p (?e :: ?l)) with (count_of p ([e] ++ l)).
  rewrite !count_of_app, (count_of_blocks p a _ _ _ _ (Ha _ _) F).
  rewrite (count_of_none p [_]) by (constructor; [apply Hg | constructor]).
  rewrite Hb; [lia|].
  unfold placement_events. destruct (sc && (n =? 4));
    [destruct (nth (Z.to_nat i) rotation_values (0, 0, 0)) as [[rx ry] rz]|];
    repeat (constructor; [apply Hm; reflexivity|]); constructor.
Qed.

(** The number of commands of one kind in a call that passes the guards,
    for a kind that only the loop issues. *)
Lemma count_of_call (p : command -> bool) (a b : nat) (n : Z) (sf : float)
      (sc : bool) (s : scene H) :
  guards_pass n s ->
  (forall k g mesh copy dup bs, count_of p (mesh_events k g mesh copy dup bs) = a) ->
  (forall w pg g circle placement,
      Forall (fun e => event_is p e = false) placement ->
      count_of p (control_events sf w pg g circle placement) = b) ->
  (forall c, showcase_step c = true -> p c = false) ->
  (forall c, moves_or_rotates c = true -> p c = false) ->
  (forall x, p (GroupEmpty x) = false) ->
  (forall x, p (Select x) = false) ->
  count_of p (trace (duplicate_and_deform H n sf sc s)) =
    (Z.to_nat n * (List.length (meshes_of s) * a + b))%nat.
Proof.
  intros G Ha Hb Hs Hm Hg Hsel.
  destruct (run_shape H n sf sc s G) as [pg [showcase [groups [Et [Hsc Fg]]]]].
  rewrite Et.
  change (?x ++ ?e :: ?l) with (x ++ [e] ++ l).
  rewrite !count_of_app.
  rewrite (count_of_none p (head_events n s))
    by (apply head_events_quiet; intro l; apply Hs; reflexivity).
  rewrite (count_of_none p [_]) by (constructor; [apply Hg | constructor]).
  rewrite (count_of_none p showcase).
  2:{ apply (showcase_part_forall _ _ _ _ _ _ _ Hsc); try reflexivity.
      - intros c Hc. apply Hs, Hc.
      - intros c r Hc. apply (Hs c Hc). }
  rewrite (count_of_none p [Did (Select _)]) by (constructor; [apply Hsel | constructor]).
  rewrite (count_of_groups p a b _ _ _ _ _ _ _ _ _ _ Ha (Hb _ _)
             (fun e => match e with
                       | Did c | Made c _ => Hm c
                       | _ => fun _ => eq_refl
                       end)
             (fun k g => Hg _) Fg).
  unfold Py.range. rewrite length_map, length_seq. lia.
Qed.

End Counting.

(** X5: asked for zero or a negative number of copies, a call that passes
    the guards still tests for the parent group and cleans up when it exists,
    creates an empty BB_Duplicates_Grp, builds the showcase when asked to and
    selects the initial selection again; it creates no node of a copy. *)
Theorem no_copy_still_rebuilds (H : Host) (n : Z) (sf : float) (sc : bool)
        (s : scene H) :
  guards_pass n s -> n <= 0 ->
  let t := trace (duplicate_and_deform H n sf sc s) in
  exists pg showcase,
    t = selection_queries s ++ bbox_queries (meshes_of s) ++
        Asked (ObjExists parent_group_name) ::
        (if obj_exists H s parent_group_name then cleanup_events s else []) ++
        Made (GroupEmpty parent_group_name) pg ::
        showcase ++ [Did (Select (ls_selection H s))] /\
    showcase_part sc (ls_selection H s) pg (height_of s) (depth_of s) showcase /\
    free_of creates_loop_node t = true.
Proof.
  intros G Hn t. subst t.
  destruct (run_shape H n sf sc s G) as [pg [showcase [groups [Et [Hs Fg]]]]].
  assert (Er : Py.range n = []).
  { unfold Py.range. replace (Z.to_nat n) with 0%nat by lia. reflexivity. }
  rewrite Er in Fg. inversion Fg; subst. cbn [List.concat app] in Et.
  assert (En : (n >? 10) = false) by (rewrite Z.gtb_ltb; apply Z.ltb_ge; lia).
  assert (Eh : head_events n s =
               selection_queries s ++ bbox_queries (meshes_of s) ++
               Asked (ObjExists parent_group_name) ::
               (if obj_exists H s parent_group_name then cleanup_events s else []))
    by (unfold head_events; rewrite En; reflexivity).
  exists pg, showcase. split; [|split; [exact Hs|]].
  - rewrite Et, Eh, <- !app_assoc. reflexivity.
  - rewrite Et. change (?x ++ ?e :: ?l) with (x ++ [e] ++ l).
    rewrite !free_of_app.
    rewrite (free_of_forall _ _ (head_events_quiet H _ n s (fun _ => eq_refl))).
    rewrite (showcase_part_free _ _ _ _ _ _ _ Hs); [reflexivity|].
    intros c; destruct c; cbn; try congruence.
    intro E; apply String.eqb_eq in E; subst; reflexivity.
Qed.

(** X6: in the showcase layout for four copies every copy number indexes
    both tables within their four entries, so the rotation and the offset of
    each control circle are read from the tables, never past their end; and the
    tables have one entry per copy. *)
Theorem showcase_tables_in_range (n : Z) (sc : bool) (i : Z) :
  sc && (n =? 4) = true -> In i (Py.range n) ->
  (exists rot off,
     nth_error rotation_values (Z.to_nat i) = Some rot /\
     nth_error offset_positions (Z.to_nat i) = Some off /\
     nth (Z.to_nat i) rotation_values (0, 0, 0) = rot /\
     nth (Z.to_nat i) offset_positions (0, 0)%float = off) /\
  Z.of_nat (List.length rotation_values) = n /\
  Z.of_nat (List.length offset_positions) = n.
Proof.
  intros Hb Hi. apply andb_prop in Hb. destruct Hb as [_ Hn].
  apply Z.eqb_eq in Hn. subst n. apply range_spec in Hi.
  assert (C : i = 0 \/ i = 1 \/ i = 2 \/ i = 3) by lia.
  split; [|split; reflexivity].
  destruct C as [-> | [-> | [-> | ->]]]; eexists _, _; repeat split.
Qed.

(** X7: a call that passes the guards for n copies of m selected meshes
    issues, in all, n * m duplicate commands, n * m renames and n * m blend
    shapes, n circles and 2 * n constraints (n counted as zero when it is
    negative), with or without the showcase. *)
Theorem creation_counts (H : Host) (n : Z) (sf : float) (sc : bool) (s : scene H) :
  guards_pass n s ->
  let t := trace (duplicate_and_deform H n sf sc s) in
  let copies := Z.to_nat n in
  let m := List.length (meshes_of s) in
  count_of is_duplicate t = (copies * m)%nat /\
  count_of is_rename t = (copies * m)%nat /\
  count_of is_blend_shape t = (copies * m)%nat /\
  count_of is_circle t = copies /\
  count_of is_constraint t = (2 * copies)%nat.
Proof.
  intros G t copies m. subst t copies m.
  assert (C : forall (p : command -> bool) (b : nat),
             (forall w pg g circle,
                 count_of p (control_events sf w pg g circle []) = b) ->
             forall w pg g circle placement,
               Forall (fun e => event_is p e = false) placement ->
               count_of p (control_events sf w pg g circle placement) = b).
  { intros p b Hb w pg g circle placement Hp. rewrite <- (Hb w pg g circle).
    unfold control_events. rewrite !count_of_app, (count_of_none _ placement Hp).
    reflexivity. }
  repeat split.
  - rewrite (count_of_call H is_duplicate 1 0 n sf sc s G); try reflexivity; try lia;
      try (intros c; destruct c; cbn; congruence).
    apply C. reflexivity.
  - rewrite (count_of_call H is_rename 1 0 n sf sc s G); try reflexivity; try lia;
      try (intros c; destruct c; cbn; congruence).
    apply C. reflexivity.
  - rewrite (count_of_call H is_blend_shape 1 0 n sf sc s G); try reflexivity; try lia;
      try (intros c; destruct c; cbn; congruence).
    apply C. reflexivity.
  - rewrite (count_of_call H is_circle 0 1 n sf sc s G); try reflexivity; try lia;
      try (intros c; destruct c; cbn; congruence).
    apply C. reflexivity.
  - rewrite (count_of_call H is_constraint 0 2 n sf sc s G); try reflexivity; try lia;
      try (intros c; destruct c; cbn; congruence).
    apply C. reflexivity.
Qed.

(** ** The scale slider *)

Lemma for_each_run (H : Host) (A : Type) (cmd : A -> command) (xs : list A)
      (s : scene H) :
  for_each xs (fun x => run_ H (cmd x)) s =
  (tt, fold_left (fun s' x => snd (exec H (cmd x) s')) xs s,
   map (fun x => Did (cmd x)) xs).
Proof.
  revert s. induction xs as [|x xs IH]; intro s; [reflexivity|].
  cbn [for_each]. rewrite bind_run, run__eq. cbn [value final trace fst snd].
  rewrite IH. reflexivity.
Qed.

(** Below 2^63 the conversion is the integer itself, rounded to the nearest
    binary64 number, as Python's conversion of an int is. *)
Lemma float_of_Z_rounds (z : Z) :
  0 <= z < 2 ^ 63 ->
  Prim2SF (Py.float_of_Z z) = binary_normalize prec emax z 0 false.
Proof.
  intro Hz. unfold Py.float_of_Z.
  destruct (Z.ltb_spec z 0) as [Hneg|_]; [lia|].
  rewrite of_uint63_spec. f_equal.
  rewrite Uint63.of_Z_spec. apply Z.mod_small. exact Hz.
Qed.

(** X8: at a position of the scale slider, 1 to 150, the handler lists the
    control circles once, in the scene as it is, and then scales each listed
    circle, in the order listed, by one factor on the three axes; it runs no
    other command, and none at all when no circle is listed, so the scene it
    leaves is the scene it found with these scalings applied in order.  The
    factor is the binary64 quotient by 50 of the position, which converts
    to binary64 as the integer it is; the factor is positive. *)
Theorem slider_scales_listed_circles (H : Host) (position : Z) (s : scene H) :
  1 <= position <= 150 ->
  let factor := (Py.float_of_Z position / 50)%float in
  let circles := ls_matching H s ["*BB_Duplicate_Mesh*ctrl*"%string]
                             (Some "transform"%string) in
  let r := on_scale_changed H position s in
  trace r =
    Asked (Ls ["*BB_Duplicate_Mesh*ctrl*"%string] (Some "transform"%string)) ::
    map (fun circle => Did (Scale factor factor factor circle)) circles /\
  final r =
    fold_left (fun s' circle => snd (exec H (Scale factor factor factor circle) s'))
              circles s /\
  (circles = [] -> final r = s /\ commands (trace r) = []) /\
  Prim2SF factor =
    SF64div (binary_normalize prec emax position 0 false) (Prim2SF 50) /\
  (0 <? factor)%float = true.
Proof.
  intros Hp factor circles r. subst r factor circles. unfold on_scale_changed.
  rewrite bind_run. cbn [ask value final trace fst snd].
  rewrite for_each_run. cbn [value final trace fst snd app].
  split; [reflexivity|]. split; [reflexivity|].
  split; [intros ->; split; reflexivity|].
  split.
  - rewrite div_spec, float_of_Z_rounds by lia. reflexivity.
  - assert (A : forallb (fun v => (0 <? Py.float_of_Z (v + 1) / 50)%float)
                        (Py.range 150) = true) by (vm_compute; reflexivity).
    rewrite forallb_forall in A. specialize (A (position - 1)).
    replace (position - 1 + 1) with position in A by lia.
    apply A, range_spec. lia.
Qed.

(** X9: over the slider's positions, 1 to 150, the scale factor value / 50
    lies between 0.02 and 3; it is 0.02 at position 1, 1 at position 50 and 3
    at position 150, and grows with the position. *)
Theorem slider_factor_bounds (value : Z) :
  1 <= value <= 150 ->
  let factor := (Py.float_of_Z value / 50)%float in
  (0.02 <=? factor)%float = true /\
  (factor <=? 3)%float = true /\
  (value < 150 -> (factor <? Py.float_of_Z (value + 1) / 50)%float = true).
Proof.
  intros Hv factor. subst factor.
  assert (A : forallb (fun v => (0.02 <=? Py.float_of_Z (v + 1) / 50)%float &&
                                (Py.float_of_Z (v + 1) / 50 <=? 3)%float &&
                                ((149 <=? v) ||
                                 (Py.float_of_Z (v + 1) / 50 <?
                                  Py.float_of_Z (v + 1 + 1) / 50)%float))
                      (Py.range 150) = true) by (vm_compute; reflexivity).
  rewrite forallb_forall in A. specialize (A (value - 1)).
  replace (value - 1 + 1) with value in A by lia.
  assert (Hi : In (value - 1) (Py.range 150)) by (apply range_spec; lia).
  apply A in Hi. apply andb_prop in Hi. destruct Hi as [Hi Hs].
  apply andb_prop in Hi. destruct Hi as [Hl Hu].
  repeat split; [exact Hl | exact Hu |].
  intro Hlt. apply orb_prop in Hs. destruct Hs as [Hs|Hs]; [|exact Hs].
  apply Z.leb_le in Hs. lia.
Qed.

(** ** Names against the cleanup patterns *)

Section Patterns.

Import Decimal.

Lemma uint_chars (d : uint) (c : ascii) :
  occurs c (NilEmpty.string_of_uint d) ->
  In c ["0"; "1"; "2"; "3"; "4"; "5"; "6"; "7"; "8"; "9"]%char.
Proof.
  unfold occurs. induction d; cbn [NilEmpty.string_of_uint list_ascii_of_string];
    intros Hin; try destruct Hin as [<-|Hin]; try (apply IHd, Hin); cbn; tauto.
Qed.

Lemma format_02d_chars (n : Z) (c : ascii) :
  occurs c (Py.format_02d n) ->
  In c ["-"; "0"; "1"; "2"; "3"; "4"; "5"; "6"; "7"; "8"; "9"]%char.
Proof.
  unfold Py.format_02d, occurs.
  destruct (n <? 0); [|destruct (String.length _ <? 2)%nat];
    cbn [list_ascii_of_string]; intros Hin.
  - destruct Hin as [<-|Hin]; [left; reflexivity | right; now apply uint_chars in Hin].
  - destruct Hin as [<-|Hin]; [right; left; reflexivity | right; now apply uint_chars in Hin].
  - right. now apply uint_chars in Hin.
Qed.

End Patterns.

(** X10: the name asked for the blend shapes of copy k under a group that
    got the name it was requested, BB_Duplicate_Mesh_<k>_BS, holds no
    lower-case b, hence nowhere the letters bs that the blend-shape pattern
    of remove_duplicates, *BB_Duplicate_Mesh*bs*, spells out; the name asked
    for the control circle, BB_Duplicate_Mesh_<k>_ctrl, holds the two literal
    parts of the circle pattern in order. *)
Theorem blend_shape_name_has_no_bs (k : Z) :
  ~ occurs "b" (group_name k ++ "_BS") /\
  (forall before after,
     (group_name k ++ "_BS")%string <> (before ++ "bs" ++ after)%string) /\
  (exists between,
     (group_name k ++ "_ctrl")%string =
     ("BB_Duplicate_Mesh" ++ between ++ "ctrl")%string).
Proof.
  assert (Nb : ~ occurs "b" (group_name k ++ "_BS")).
  { unfold group_name. rewrite !occurs_app. intros [[Hp|Hf]|Hs].
    - cbn in Hp. intuition discriminate.
    - apply format_02d_chars in Hf. cbn in Hf. intuition discriminate.
    - cbn in Hs. intuition discriminate. }
  split; [exact Nb|]. split.
  - intros before after E. apply Nb. rewrite E, !occurs_app.
    right. left. left. reflexivity.
  - exists ("_" ++ Py.format_02d k ++ "_")%string. unfold group_name.
    rewrite !append_assoc. reflexivity.
Qed.

(** * The cleanup and the scene a call leaves *)

(** ** The scene as the replay of the trace *)

Section Replay.

Variable H : Host.

















End Replay.

(** ** The names a call asks for *)

Section GroupNames.




End GroupNames.

Section Within.









End Within.

Section Scene.

Variable H : Host.










End Scene.

(** ** The reference host names no node like a copy group unasked *)

Section ReferenceLaws.

Import Reference.






End ReferenceLaws.




(** ** C9 *)




(** On the reference host the cleanup leaves no copy group and no parent group
    of what earlier calls built, for zero to four copies of one or two
    meshes, with and without the showcase. *)
Example cleanup_clears_earlier_calls :
  forallb (fun s0 =>
    forallb (fun sc =>
      forallb (fun n =>
        let built := final (duplicate_and_deform Reference.host n 0.5 sc s0) in
        forallb (fun x => negb (copy_group_like x) &&
                          negb (String.eqb x parent_group_name))
                (Reference.names (Reference.nodes (cleaned (H := Reference.host) built))))
        (Py.range 5))
      [false; true])
    [Reference.sphere_scene Yes; Reference.pair_scene Yes] = true.
Proof. vm_compute. reflexivity. Qed.

(** On the reference host, a second call on the scene a first call left
    leaves exactly one node named BB_Duplicates_Grp and exactly the copy
    groups it asked for: for zero to three copies in either call, with and
    without the showcase, BB_Duplicate_Mesh_<k> exists afterwards exactly for
    k from 1 to the number of copies of the second call. *)
Example repeated_calls_do_not_accumulate :
  forallb (fun sc1 =>
    forallb (fun n1 =>
      forallb (fun sc2 =>
        forallb (fun n2 =>
          let once := final (duplicate_and_deform Reference.host n1 0.5 sc1
                                                  (Reference.sphere_scene Yes)) in
          let twice := final (duplicate_and_deform Reference.host n2 0.5 sc2 once) in
          (List.length (filter (String.eqb parent_group_name)
                               (Reference.names (Reference.nodes twice))) =? 1)%nat &&
          forallb (fun k => Bool.eqb (obj_exists Reference.host twice (group_name k))
                                     (k <=? n2))
                  [1; 2; 3; 4; 5; 6; 7; 8])
          (Py.range 4))
        [false; true])
      (Py.range 4))
    [false; true] = true.
Proof. vm_compute. reflexivity. Qed.

(** ** The further properties at concrete calls on the reference host *)

Lemma group_requests_distinct_witness :
  let s := Reference.pair_scene Yes in
  guards_pass (H := Reference.host) 12 s /\
  NoDup (group_requests (trace (duplicate_and_deform Reference.host 12 0.5 true s))).
Proof.
  intro s.
  assert (G : guards_pass (H := Reference.host) 12 s)
    by (split; [vm_compute; discriminate | intros _; reflexivity]).
  split; [exact G|].
  exact (proj1 (group_requests_distinct Reference.host 12 0.5 true s G)).
Defined.

Lemma no_copy_still_rebuilds_witness :
  let once := final (duplicate_and_deform Reference.host 2 0.5 false
                                          (Reference.sphere_scene Yes)) in
  guards_pass (H := Reference.host) 0 once /\
  0 <= 0 /\
  free_of creates_loop_node
    (trace (duplicate_and_deform Reference.host 0 0.5 false once)) = true.
Proof.
  intro once.
  assert (G : guards_pass (H := Reference.host) 0 once)
    by (split; [vm_compute; discriminate | intros _; reflexivity]).
  assert (L : 0 <= 0) by lia.
  split; [exact G|]. split; [exact L|].
  destruct (no_copy_still_rebuilds Reference.host 0 0.5 false once G L)
    as (pg & showcase & _ & _ & F).
  exact F.
Defined.

Lemma showcase_tables_in_range_witness :
  true && (4 =? 4) = true /\ In 2 (Py.range 4) /\
  exists rot off,
    nth_error rotation_values (Z.to_nat 2) = Some rot /\
    nth_error offset_positions (Z.to_nat 2) = Some off /\
    nth (Z.to_nat 2) rotation_values (0, 0, 0) = rot /\
    nth (Z.to_nat 2) offset_positions (0, 0)%float = off.
Proof.
  assert (B : true && (4 =? 4) = true) by reflexivity.
  assert (I : In 2 (Py.range 4)) by (vm_compute; right; right; left; reflexivity).
  split; [exact B|]. split; [exact I|].
  exact (proj1 (showcase_tables_in_range 4 true 2 B I)).
Defined.

Lemma creation_counts_witness :
  let s := Reference.pair_scene Yes in
  guards_pass (H := Reference.host) 3 s /\
  count_of is_duplicate
    (trace (duplicate_and_deform Reference.host 3 0.5 true s)) = 6%nat.
Proof.
  intro s.
  assert (G : guards_pass (H := Reference.host) 3 s)
    by (split; [vm_compute; discriminate | intros _; reflexivity]).
  split; [exact G|].
  exact (proj1 (creation_counts Reference.host 3 0.5 true s G)).
Defined.

Lemma slider_factor_bounds_witness :
  1 <= 75 <= 150 /\
  (0.02 <=? Py.float_of_Z 75 / 50)%float = true /\
  (Py.float_of_Z 75 / 50 <=? 3)%float = true.
Proof.
  assert (R : 1 <= 75 <= 150) by lia.
  split; [exact R|].
  destruct (slider_factor_bounds 75 R) as (L & U & _).
  split; [exact L | exact U].
Defined.

(** A slider move to position 100 on the reference host, after a call for
    two copies. *)
Lemma slider_scales_listed_circles_witness :
  let built := final (duplicate_and_deform Reference.host 2 0.5 false
                                           (Reference.sphere_scene Yes)) in
  1 <= 100 <= 150 /\
  trace (on_scale_changed Reference.host 100 built) =
  [Asked (Ls ["*BB_Duplicate_Mesh*ctrl*"%string] (Some "transform"%string));
   Did (Scale 2 2 2 "BB_Duplicate_Mesh_01_ctrl");
   Did (Scale 2 2 2 "BB_Duplicate_Mesh_02_ctrl")].
Proof.
  intro built.
  assert (R : 1 <= 100 <= 150) by lia.
  split; [exact R|].
  destruct (slider_scales_listed_circles Reference.host 100 built R) as (E & _).
  etransitivity; [exact E|]. vm_compute. reflexivity.
Defined.
